(** * ALISA: log integrity and segregation-of-duties analyzer

    A shallow embedding of the audit pipeline of ALISA
    ([core/hasher.py], [modules/rule_engine.py], [modules/reporter.py],
    [core/database.py] and [main.py]) and the properties of its rule
    engine and of [run_pipeline].

    Conventions of the embedding:
    - a Python [str] is a Rocq [string], read as the UTF-8 bytes of the
      text (substring search and [split] on ASCII separators agree on
      bytes and on code points);
    - a [dict] with string keys is a [gmap string _], a [set] of strings
      a [gset string];
    - [dict.get(k)] is the map lookup, [None] being the absent key;
    - the module-level singleton [engine], the artifact directory and the
      two SQLite tables are fields of one explicit [World] that
      [run_pipeline] threads through its stages;
    - the first part takes a configuration of the documented shape and a
      parser that answers with JSON objects; [Module Untyped] embeds the
      same functions on any configuration and any JSON answer, with the
      exceptions they raise, and is shown to agree with the first part
      on the values that part covers. *)

From Stdlib Require Import ZArith String Ascii List Lia.
From stdpp Require Import gmap strings list fin_maps pretty.

Local Open Scope string_scope.

Set Warnings "-clear-no-such-hyp".

(** ** Python built-ins used by the sources *)

Module Py.

(** Truth value of a [str]: only the empty string is false. *)
Definition truthy (s : string) : bool :=
  match s with
  | EmptyString => false
  | String _ _ => true
  end.

(** Truth value of an optional [str] ([None] is false). *)
Definition truthy_opt (o : option string) : bool :=
  match o with
  | None => false
  | Some s => truthy s
  end.

(** [s.startswith(p)]. *)
Fixpoint startswith (p s : string) : bool :=
  match p, s with
  | EmptyString, _ => true
  | String a p', String b s' => if Ascii.eqb a b then startswith p' s' else false
  | String _ _, EmptyString => false
  end.

(** [needle in hay] on strings. *)
Fixpoint contains (needle hay : string) : bool :=
  startswith needle hay ||
  match hay with
  | EmptyString => false
  | String _ hay' => contains needle hay'
  end.

(** [s.split(sep)] for a non-empty [sep]: the fields between the
    leftmost non-overlapping occurrences of [sep].  [skip] counts the
    characters of a matched separator still to be passed over and
    [cur] is the field being read. *)
Fixpoint split_from (sep s : string) (skip : nat) (cur : string) : list string :=
  match s with
  | EmptyString => [cur]
  | String c s' =>
      match skip with
      | S k => split_from sep s' k cur
      | O =>
          if startswith sep s
          then cur :: split_from sep s' (String.length sep - 1) EmptyString
          else split_from sep s' 0 (cur +:+ String c EmptyString)
      end
  end.

Definition split (sep s : string) : list string := split_from sep s 0 EmptyString.

End Py.

(** ** core/hasher.py *)

Module Hasher.

Local Open Scope Z_scope.

(** *** SHA-256 (FIPS 180-4), the function behind [hashlib.sha256] *)

Definition w32 (x : Z) : Z := x mod 2 ^ 32.
Definition add32 (x y : Z) : Z := w32 (x + y).
Definition rotr (n x : Z) : Z := w32 (Z.lor (Z.shiftr x n) (Z.shiftl x (32 - n))).
Definition shr (n x : Z) : Z := Z.shiftr x n.
Definition not32 (x : Z) : Z := 2 ^ 32 - 1 - x.

Definition Ch (x y z : Z) : Z := Z.lxor (Z.land x y) (Z.land (not32 x) z).
Definition Maj (x y z : Z) : Z :=
  Z.lxor (Z.lxor (Z.land x y) (Z.land x z)) (Z.land y z).
Definition Sigma0 (x : Z) : Z := Z.lxor (Z.lxor (rotr 2 x) (rotr 13 x)) (rotr 22 x).
Definition Sigma1 (x : Z) : Z := Z.lxor (Z.lxor (rotr 6 x) (rotr 11 x)) (rotr 25 x).
Definition sigma0 (x : Z) : Z := Z.lxor (Z.lxor (rotr 7 x) (rotr 18 x)) (shr 3 x).
Definition sigma1 (x : Z) : Z := Z.lxor (Z.lxor (rotr 17 x) (rotr 19 x)) (shr 10 x).

(** The first 64 primes. *)
Definition primes : list Z :=
  [ 2; 3; 5; 7; 11; 13; 17; 19; 23; 29; 31; 37; 41; 43; 47; 53;
    59; 61; 67; 71; 73; 79; 83; 89; 97; 101; 103; 107; 109; 113; 127; 131;
    137; 139; 149; 151; 157; 163; 167; 173; 179; 181; 191; 193; 197; 199; 211; 223;
    227; 229; 233; 239; 241; 251; 257; 263; 269; 271; 277; 281; 283; 293; 307; 311 ].

(** The integer cube root of [x], built from bit [n - 1] downwards. *)
Fixpoint cube_root (n : nat) (x r : Z) : Z :=
  match n with
  | O => r
  | S k =>
      let r' := r + 2 ^ Z.of_nat k in
      if r' * r' * r' <=? x then cube_root k x r' else cube_root k x r
  end.

(** The round constants: the first 32 bits of the fractional parts of the
    cube roots of the first 64 primes. *)
Definition K256 : list Z :=
  map (fun p => w32 (cube_root 36 (p * 2 ^ 96) 0)) primes.

(** The initial hash value: the first 32 bits of the fractional parts of
    the square roots of the first 8 primes. *)
Definition H256 : list Z :=
  map (fun p => w32 (Z.sqrt (p * 2 ^ 64))) (firstn 8 primes).

(** [content.encode('utf-8')]: the bytes of the text. *)
Definition encode (s : string) : list Z :=
  map (fun c => Z.of_N (N_of_ascii c)) (list_ascii_of_string s).

(** Big-endian bytes of [x], [n] of them. *)
Fixpoint be_bytes (n : nat) (x : Z) : list Z :=
  match n with
  | O => []
  | S k => (Z.shiftr x (8 * Z.of_nat k)) mod 256 :: be_bytes k x
  end.

(** Padding: a 1 bit, zeros up to 56 mod 64 bytes, the bit length on 64 bits. *)
Definition pad (msg : list Z) : list Z :=
  let len := Z.of_nat (length msg) in
  let zeros := Z.to_nat ((55 - len) mod 64) in
  msg ++ [0x80] ++ repeat 0 zeros ++ be_bytes 8 (8 * len).

(** The big-endian 32-bit words of a byte sequence. *)
Fixpoint words (fuel : nat) (bs : list Z) : list Z :=
  match fuel, bs with
  | S k, b0 :: b1 :: b2 :: b3 :: rest =>
      (b0 * 2 ^ 24 + b1 * 2 ^ 16 + b2 * 2 ^ 8 + b3) :: words k rest
  | _, _ => []
  end.

(** Message schedule; the list holds W[t-1], W[t-2], ... newest first. *)
Fixpoint schedule (n : nat) (w : list Z) : list Z :=
  match n with
  | O => w
  | S k =>
      let wt := add32 (add32 (sigma1 (nth 1 w 0)) (nth 6 w 0))
                      (add32 (sigma0 (nth 14 w 0)) (nth 15 w 0)) in
      schedule k (wt :: w)
  end.

Record regs := Regs { ra : Z; rb : Z; rc : Z; rd : Z; re : Z; rf : Z; rg : Z; rh : Z }.

Definition round (r : regs) (kw : Z * Z) : regs :=
  let '(k, w) := kw in
  let t1 := add32 (add32 (add32 (rh r) (Sigma1 (re r))) (add32 (Ch (re r) (rf r) (rg r)) k)) w in
  let t2 := add32 (Sigma0 (ra r)) (Maj (ra r) (rb r) (rc r)) in
  Regs (add32 t1 t2) (ra r) (rb r) (rc r) (add32 (rd r) t1) (re r) (rf r) (rg r).

Definition regs_of (h : list Z) : regs :=
  Regs (nth 0 h 0) (nth 1 h 0) (nth 2 h 0) (nth 3 h 0)
       (nth 4 h 0) (nth 5 h 0) (nth 6 h 0) (nth 7 h 0).

Definition compress (h : list Z) (block : list Z) : list Z :=
  let w := rev (schedule 48 (rev block)) in
  let r := fold_left round (combine K256 w) (regs_of h) in
  [ add32 (nth 0 h 0) (ra r); add32 (nth 1 h 0) (rb r);
    add32 (nth 2 h 0) (rc r); add32 (nth 3 h 0) (rd r);
    add32 (nth 4 h 0) (re r); add32 (nth 5 h 0) (rf r);
    add32 (nth 6 h 0) (rg r); add32 (nth 7 h 0) (rh r) ].

Fixpoint blocks (fuel : nat) (h : list Z) (ws : list Z) : list Z :=
  match fuel, ws with
  | S k, _ :: _ => blocks k (compress h (firstn 16 ws)) (skipn 16 ws)
  | _, _ => h
  end.

Definition sha256 (msg : list Z) : list Z :=
  let bs := pad msg in
  let ws := words (length bs) bs in
  flat_map (be_bytes 4) (blocks (length ws) H256 ws).

Definition hex_digit (d : Z) : ascii :=
  if d <? 10 then ascii_of_N (Z.to_N (48 + d)) else ascii_of_N (Z.to_N (87 + d)).

(** [.hexdigest()]: two lower-case hexadecimal digits per byte. *)
Fixpoint hexdigest (bs : list Z) : string :=
  match bs with
  | [] => EmptyString
  | b :: rest => String (hex_digit (b / 16)) (String (hex_digit (b mod 16)) (hexdigest rest))
  end.

(** [generate_sha256(content)] *)
Definition generate_sha256 (content : string) : string :=
  hexdigest (sha256 (encode content)).

(** [verify_integrity(content, baseline_hash)] *)
Definition verify_integrity (content baseline_hash : string) : bool :=
  let current_hash := generate_sha256 content in
  String.eqb current_hash baseline_hash.

End Hasher.

Example sha256_constants :
  nth 0 Hasher.K256 0%Z = 0x428a2f98%Z /\ nth 63 Hasher.K256 0%Z = 0xc67178f2%Z
  /\ nth 0 Hasher.H256 0%Z = 0x6a09e667%Z /\ nth 7 Hasher.H256 0%Z = 0x5be0cd19%Z.
Proof. vm_compute. repeat split. Qed.

Example sha256_empty :
  Hasher.generate_sha256 "" = "e3b0c44298fc1c149afbf4c8996fb92427ae41e4649b934ca495991b7852b855".
Proof. vm_compute. reflexivity. Qed.

Example sha256_abc :
  Hasher.generate_sha256 "abc" = "ba7816bf8f01cfea414140de5dae2223b00361a396177a9cb410ff61f20015ad".
Proof. vm_compute. reflexivity. Qed.

Example sha256_two_blocks :
  Hasher.generate_sha256 "aaaaaaaaaaaaaaaaaaaaaaaaaaaaaaaaaaaaaaaaaaaaaaaaaaaaaaaa"
  = "b35439a4ac6f0948b6d6f9e3c6af0f5f590ce20f1bde7090ef7970686ec6738a".
Proof. vm_compute. reflexivity. Qed.

Example split_examples :
  Py.split "aa" "xaaaay" = ["x"; ""; "y"]
  /\ Py.split "User " "User a User b executed action: x" = [""; "a "; "b executed action: x"]
  /\ Py.split "aa" "aaa" = [""; "a"]
  /\ Py.split "a" "" = [""].
Proof. vm_compute. repeat split. Qed.

(** ** modules/rule_engine.py *)

Module RuleEngine.

(** One entry of the [rules] mapping of [config.yaml].  The engine reads
    the control identifier by subscript ([sod_rule['id']]) and the pair
    list with a default ([sod_rule.get("conflict_actions", [])]): [id]
    is mandatory and [conflict_actions] optional.  A conflict is a
    2-element sequence, unpacked as [action_a, action_b]. *)
Record Rule := mkRule {
  id : string;
  conflict_actions : option (list (string * string))
}.

(** What [yaml.safe_load] returns for a well-formed document: a mapping,
    with or without the key [rules], or another YAML value. *)
Inductive Config :=
| Mapping (rules_entry : option (gmap string Rule))
| NotAMapping.

(** The configuration file as [_load_rules] meets it. *)
Inductive Source :=
| Unreadable               (* [open] raises: the file is missing or unreadable *)
| Malformed                (* [yaml.safe_load] raises on the text *)
| Loaded (config : Config).

(** The instance: [self.rules] and [self.user_state]. *)
Record t := mk {
  rules : gmap string Rule;
  user_state : gmap string (gset string)
}.

(** [_load_rules]: every exception of the [try] block, [config.get] on a
    value that is not a mapping included, ends in the [except] branch.
    The value under [rules] is a mapping of rules here;
    [Untyped._load_rules] takes whatever the document holds there. *)
Definition _load_rules (src : Source) : gmap string Rule :=
  match src with
  | Loaded (Mapping (Some r)) => r
  | Loaded (Mapping None) => ∅
  | Loaded NotAMapping => ∅
  | Unreadable => ∅
  | Malformed => ∅
  end.

(** [__init__] *)
Definition init (src : Source) : t :=
  {| rules := _load_rules src; user_state := ∅ |}.

(** The f-string of the violation message. *)
Definition violation_msg (rule_id user action_a action_b : string) : string :=
  "SoD VIOLATION DETECTED (" +:+ rule_id +:+ "): " +:+
  "User '" +:+ user +:+ "' performed conflicting actions: " +:+ action_a +:+ " + " +:+ action_b.

(** [if user not in self.user_state: self.user_state[user] = set()]
    followed by [self.user_state[user].add(action)]. *)
Definition record_action (user action : string)
    (us : gmap string (gset string)) : gmap string (gset string) :=
  let us1 := match us !! user with
             | None => <[user := ∅]> us
             | Some _ => us
             end in
  alter (λ s, s ∪ {[action]}) user us1.

(** The body of [for conflict in conflict_pairs], appending to [violations]. *)
Fixpoint check_pairs (rule_id user : string) (actions : gset string)
    (conflict_pairs : list (string * string)) (violations : list string) : list string :=
  match conflict_pairs with
  | [] => violations
  | (action_a, action_b) :: rest =>
      let has_a := bool_decide (action_a ∈ actions) in
      let has_b := bool_decide (action_b ∈ actions) in
      if has_a && has_b
      then check_pairs rule_id user actions rest
             (violations ++ [violation_msg rule_id user action_a action_b])
      else check_pairs rule_id user actions rest violations
  end.

(** [analyze_log]: the violation messages and the instance afterwards.
    A rule carries the key [id], so it is a non-empty mapping and
    [if sod_rule:] holds exactly when the rule is present. *)
Definition analyze_log (structured_log : gmap string string) (self : t) : list string * t :=
  let violations := [] in
  let user := structured_log !! "user" in
  let action := structured_log !! "action" in
  match user, action with
  | Some u, Some a =>
      if negb (Py.truthy u) || negb (Py.truthy a) then ([], self)
      else
        let self := {| rules := rules self;
                       user_state := record_action u a (user_state self) |} in
        let sod_rule := rules self !! "nist_ac2_sod" in
        match sod_rule with
        | Some r =>
            let conflict_pairs := default [] (conflict_actions r) in
            (check_pairs (id r) u (default ∅ (user_state self !! u))
                         conflict_pairs violations, self)
        | None => (violations, self)
        end
  | _, _ => ([], self)
  end.

(** A sequence of calls on the same instance; the results are dropped. *)
Definition analyze_all (events : list (gmap string string)) (self : t) : t :=
  fold_left (λ e ev, snd (analyze_log ev e)) events self.

(** The action set recorded for an actor ([∅] when none). *)
Definition actions_of (self : t) (user : string) : gset string :=
  default ∅ (user_state self !! user).

(** An event as the pipeline builds it. *)
Definition event (user action : string) : gmap string string :=
  <["action" := action]> (<["user" := user]> ∅).

End RuleEngine.

(** ** modules/reporter.py *)

Module Reporter.

Record SourceLog := mkSourceLog {
  Raw : string;
  IntegrityVerified : bool
}.

(** The evidence artifact; [ViolationReason] is the optional key. *)
Record Artifact := mkArtifact {
  EvidenceID : string;
  Timestamp : string;
  NIST_Control : string;
  Status : string;
  Source : SourceLog;
  Details : gmap string string;
  ViolationReason : option string
}.

(** [generate_evidence_artifact]; [uuid] and [now] stand for
    [str(uuid.uuid4())] and [datetime.now().isoformat()]. *)
Definition generate_evidence_artifact (uuid now : string)
    (log_line : string) (structured_data : gmap string string)
    (integrity_status : bool) (violation_msg : option string) : Artifact :=
  {| EvidenceID := uuid;
     Timestamp := now;
     NIST_Control := "AC-5 (Separation of Duties)";
     Status := if Py.truthy_opt violation_msg then "VIOLATION" else "COMPLIANT";
     Source := {| Raw := log_line; IntegrityVerified := integrity_status |};
     Details := structured_data;
     ViolationReason := if Py.truthy_opt violation_msg then violation_msg else None |}.

End Reporter.

(** ** core/database.py *)

Module Database.

(** A row of the table [IntegrityBaseline]. *)
Record Baseline := mkBaseline {
  LogID : nat;
  LogLine : string;
  HashSHA256 : string;
  Timestamp : string
}.

(** A row of the table [AuditItems]; the column [EvidenceArtifact] holds
    the artifact, or [None] for the empty object [{}]. *)
Record AuditItem := mkAuditItem {
  AuditID : nat;
  item_LogID : nat;
  item_Timestamp : string;
  UserID : string;
  Action : string;
  Verdict : string;
  NIST_Control : string;
  EvidenceArtifact : option Reporter.Artifact
}.

End Database.

(** ** The world [run_pipeline] acts on *)

(** What lies outside the program: the answers of the Ollama endpoint, the
    UUID generator and the clock.  Each is indexed by the number of
    interactions that took place before it is asked. *)
Record Env := mkEnv {
  ollama : nat -> string -> gmap string string;
  uuid4 : nat -> string;
  isoformat_now : nat -> string;        (* [datetime.now().isoformat()] *)
  current_timestamp : nat -> string     (* SQLite's [CURRENT_TIMESTAMP] *)
}.

Record World := mkWorld {
  engine : RuleEngine.t;                       (* the shared singleton *)
  artifacts : list Reporter.Artifact;          (* files written under data/artifacts *)
  IntegrityBaseline : list Database.Baseline;  (* table, in insertion order *)
  AuditItems : list Database.AuditItem;        (* table, in insertion order *)
  posted : list string;                        (* log lines sent to the parser *)
  ticks : nat                                  (* interactions with [Env] so far *)
}.

(** State passing over [World]. *)
Definition M (A : Type) : Type := World -> A * World.

#[global] Instance M_ret : MRet M := λ A a w, (a, w).
#[global] Instance M_bind : MBind M := λ A B f m w, let '(a, w') := m w in f a w'.

Definition get_world : M World := λ w, (w, w).
Definition put_world (w : World) : M unit := λ _, (tt, w).

(** [for x in xs: body(x)] *)
Fixpoint for_each {A} (xs : list A) (body : A -> M unit) : M unit :=
  match xs with
  | [] => mret tt
  | x :: rest => body x ≫= λ _, for_each rest body
  end.

Section Pipeline.

Variable env : Env.

(** One interaction with the outside: the current index, then advanced. *)
Definition tick : M nat :=
  λ w, (ticks w, mkWorld (engine w) (artifacts w) (IntegrityBaseline w)
                         (AuditItems w) (posted w) (S (ticks w))).

(** [parse_log_with_phi3]: the request is sent and the decoded answer
    returned; the [except] branch returns [{}], which is one of the
    answers [ollama] can give.  The answer is a JSON object here, as the
    annotation [-> dict] has it; [Untyped.parse_log_with_phi3] returns
    any JSON value. *)
Definition parse_log_with_phi3 (log_line : string) : M (gmap string string) :=
  n ← tick;
  w ← get_world;
  put_world (mkWorld (engine w) (artifacts w) (IntegrityBaseline w)
                     (AuditItems w) (posted w ++ [log_line]) (ticks w));;
  mret (ollama env n log_line).

(** [generate_evidence_artifact] with its two draws from the outside. *)
Definition generate_evidence_artifact (log_line : string)
    (structured_data : gmap string string) (integrity_status : bool)
    (violation_msg : option string) : M Reporter.Artifact :=
  u ← tick;
  t ← tick;
  mret (Reporter.generate_evidence_artifact (uuid4 env u) (isoformat_now env t)
          log_line structured_data integrity_status violation_msg).

(** [save_artifact] *)
Definition save_artifact (artifact : Reporter.Artifact) : M unit :=
  λ w, (tt, mkWorld (engine w) (artifacts w ++ [artifact]) (IntegrityBaseline w)
                    (AuditItems w) (posted w) (ticks w)).

(** [save_log_baseline]: the row gets the next [LogID], which is returned. *)
Definition save_log_baseline (raw_log log_hash : string) : M nat :=
  t ← tick;
  w ← get_world;
  let log_id := S (length (IntegrityBaseline w)) in
  put_world (mkWorld (engine w) (artifacts w)
               (IntegrityBaseline w ++
                  [Database.mkBaseline log_id raw_log log_hash (current_timestamp env t)])
               (AuditItems w) (posted w) (ticks w));;
  mret log_id.

(** [save_audit_item] *)
Definition save_audit_item (log_id : nat) (user_id action verdict nist_control : string)
    (evidence_json : option Reporter.Artifact) : M unit :=
  t ← tick;
  w ← get_world;
  put_world (mkWorld (engine w) (artifacts w) (IntegrityBaseline w)
               (AuditItems w ++
                  [Database.mkAuditItem (S (length (AuditItems w))) log_id
                     (isoformat_now env t) user_id action verdict nist_control
                     evidence_json])
               (posted w) (ticks w)).

(** [rule_engine.analyze_log] on the shared instance. *)
Definition analyze_log (structured_data : gmap string string) : M (list string) :=
  λ w, let '(violations, e) := RuleEngine.analyze_log structured_data (engine w) in
       (violations, mkWorld e (artifacts w) (IntegrityBaseline w)
                            (AuditItems w) (posted w) (ticks w)).

(** The [try] block of step 2b: an [IndexError] gives [{}]. *)
Definition fallback_parse (raw_log : string) : gmap string string :=
  match Py.split "User " raw_log !! 1%nat with
  | None => ∅
  | Some after_user =>
      let parts := Py.split " executed action: " after_user in
      match parts !! 0%nat, parts !! 1%nat with
      | Some p0, Some p1 =>
          match Py.split " " p1 !! 0%nat with
          | Some a => <["action" := a]> (<["user" := p0]> ∅)
          | None => ∅
          end
      | _, _ => ∅
      end
  end.

(** Step 2b as a whole. *)
Definition fallback (raw_log : string) (structured_data : gmap string string)
    : gmap string string :=
  if bool_decide (structured_data = ∅) || bool_decide (structured_data !! "action" = None)
  then
    if Py.contains "executed action:" raw_log
    then fallback_parse raw_log
    else structured_data
  else structured_data.

(** The body of [for v in violations]: one artifact, one row. *)
Definition report_violation (raw_log : string) (structured_data : gmap string string)
    (integrity_status : bool) (log_id : nat) (v : string) : M unit :=
  artifact ← generate_evidence_artifact raw_log structured_data
               integrity_status (Some v);
  save_artifact artifact;;
  save_audit_item log_id
    (default "unknown" (structured_data !! "user"))
    (default "unknown" (structured_data !! "action"))
    "Violation" "AC-5" (Some artifact).

(** Step 4: one artifact and one row per violation, or one clear row. *)
Definition report (raw_log : string) (structured_data : gmap string string)
    (integrity_status : bool) (log_id : nat) (violations : list string) : M unit :=
  match violations with
  | _ :: _ =>
      for_each violations
        (report_violation raw_log structured_data integrity_status log_id)
  | [] =>
      save_audit_item log_id
        (default "unknown" (structured_data !! "user"))
        (default "unknown" (structured_data !! "action"))
        "Clear" "AC-5" None
  end.

(** Steps 2 to 4, reached when the integrity check did not fail. *)
Definition process (raw_log current_hash : string) (integrity_status : bool) : M bool :=
  structured_data ← parse_log_with_phi3 raw_log;
  let structured_data := fallback raw_log structured_data in
  violations ← analyze_log structured_data;
  log_id ← save_log_baseline raw_log current_hash;
  report raw_log structured_data integrity_status log_id violations;;
  mret true.

(** The tampering branch of step 1. *)
Definition tampering (raw_log : string) : M bool :=
  artifact ← generate_evidence_artifact raw_log
               (<["Event" := "Tampering Detected"]> ∅) false
               (Some "Hash Mismatch - Potential Log Tampering");
  save_artifact artifact;;
  mret false.

(** [run_pipeline(raw_log, expected_hash)] *)
Definition run_pipeline (raw_log : string) (expected_hash : option string) : M bool :=
  let current_hash := Hasher.generate_sha256 raw_log in
  let integrity_status := true in
  if Py.truthy_opt expected_hash then
    let integrity_status :=
      Hasher.verify_integrity raw_log (default "" expected_hash) in
    if negb integrity_status then tampering raw_log
    else process raw_log current_hash integrity_status
  else process raw_log current_hash integrity_status.

End Pipeline.

(** * Properties *)

(** ** The rule engine *)

Section RuleEngineFacts.

Import RuleEngine.

Implicit Types (self : t) (ev : gmap string string) (user action : string).

Lemma record_action_insert user action (us : gmap string (gset string)) :
  record_action user action us
  = <[user := default ∅ (us !! user) ∪ {[action]}]> us.
Proof.
  unfold record_action. apply map_eq. intros k.
  destruct (us !! user) as [s|] eqn:Hu; simpl.
  - destruct (decide (user = k)) as [->|Hne].
    + rewrite lookup_alter_eq, lookup_insert_eq, Hu. reflexivity.
    + rewrite lookup_alter_ne, lookup_insert_ne by done. reflexivity.
  - destruct (decide (user = k)) as [->|Hne].
    + rewrite lookup_alter_eq, !lookup_insert_eq. reflexivity.
    + rewrite lookup_alter_ne, !lookup_insert_ne by done. reflexivity.
Qed.

Lemma check_pairs_filter rule_id user (actions : gset string) pairs violations :
  check_pairs rule_id user actions pairs violations
  = (violations ++
     map (λ p, violation_msg rule_id user p.1 p.2)
         (filter (λ p, p.1 ∈ actions ∧ p.2 ∈ actions) pairs))%list.
Proof.
  revert violations.
  induction pairs as [|[a b] rest IH]; intros violations; simpl.
  - by rewrite app_nil_r.
  - rewrite filter_cons. simpl.
    destruct (decide (a ∈ actions)) as [Ha|Ha];
      destruct (decide (b ∈ actions)) as [Hb|Hb].
    + rewrite !bool_decide_eq_true_2 by done. simpl.
      rewrite decide_True by done. rewrite IH. simpl. by rewrite <- app_assoc.
    + rewrite (bool_decide_eq_false_2 (b ∈ actions)) by done.
      rewrite andb_false_r, decide_False by tauto. apply IH.
    + rewrite (bool_decide_eq_false_2 (a ∈ actions)) by done. simpl.
      rewrite decide_False by tauto. apply IH.
    + rewrite (bool_decide_eq_false_2 (a ∈ actions)) by done. simpl.
      rewrite decide_False by tauto. apply IH.
Qed.

(** The violations reported for an actor's action set under a rule set. *)
Definition violations_for (rs : gmap string Rule) user (actions : gset string)
    : list string :=
  match rs !! "nist_ac2_sod" with
  | Some r => check_pairs (id r) user actions (default [] (conflict_actions r)) []
  | None => []
  end.

(** The closed form of a call that passes the guard. *)
Lemma analyze_log_recorded ev self user action :
  ev !! "user" = Some user → ev !! "action" = Some action →
  Py.truthy user = true → Py.truthy action = true →
  analyze_log ev self
  = (violations_for (rules self) user (actions_of self user ∪ {[action]}),
     mk (rules self)
        (<[user := actions_of self user ∪ {[action]}]> (user_state self))).
Proof.
  intros Hu Ha Tu Ta. unfold analyze_log, violations_for, actions_of.
  rewrite Hu, Ha, Tu, Ta. simpl.
  rewrite record_action_insert, lookup_insert_eq. simpl.
  by destruct (rules self !! "nist_ac2_sod").
Qed.

(** The closed form of a call the guard turns away. *)
Lemma analyze_log_skipped ev self :
  Py.truthy_opt (ev !! "user") = false ∨ Py.truthy_opt (ev !! "action") = false →
  analyze_log ev self = ([], self).
Proof.
  unfold analyze_log.
  destruct (ev !! "user") as [u|], (ev !! "action") as [a|]; simpl; try done.
  intros [-> | ->]; [done|]. by rewrite orb_true_r.
Qed.

Lemma analyze_log_cases ev self :
  analyze_log ev self = ([], self)
  ∨ ∃ user action,
      ev !! "user" = Some user ∧ ev !! "action" = Some action ∧
      Py.truthy user = true ∧ Py.truthy action = true.
Proof.
  destruct (Py.truthy_opt (ev !! "user")) eqn:Tu;
    [|left; apply analyze_log_skipped; by left].
  destruct (Py.truthy_opt (ev !! "action")) eqn:Ta;
    [|left; apply analyze_log_skipped; by right].
  right. destruct (ev !! "user") as [u|]; [|done].
  destruct (ev !! "action") as [a|]; [|done]. by exists u, a.
Qed.

Lemma analyze_log_rules ev self : rules (analyze_log ev self).2 = rules self.
Proof.
  destruct (analyze_log_cases ev self) as [->|(u & a & Hu & Ha & Tu & Ta)]; [done|].
  by rewrite (analyze_log_recorded _ _ _ _ Hu Ha Tu Ta).
Qed.

Lemma analyze_all_rules evs self : rules (analyze_all evs self) = rules self.
Proof.
  revert self. induction evs as [|ev evs IH]; intros self; [done|].
  unfold analyze_all in *. simpl. rewrite IH. apply analyze_log_rules.
Qed.

Lemma analyze_all_app evs1 evs2 self :
  analyze_all (evs1 ++ evs2) self = analyze_all evs2 (analyze_all evs1 self).
Proof. unfold analyze_all. apply fold_left_app. Qed.

(** One call never removes anything from any actor's set. *)
Lemma analyze_log_grows ev self user :
  actions_of self user ⊆ actions_of (analyze_log ev self).2 user.
Proof.
  destruct (analyze_log_cases ev self) as [->|(u & a & Hu & Ha & Tu & Ta)]; [done|].
  rewrite (analyze_log_recorded _ _ _ _ Hu Ha Tu Ta). unfold actions_of. simpl.
  destruct (decide (u = user)) as [->|Hne].
  - rewrite lookup_insert_eq. simpl. set_solver.
  - by rewrite lookup_insert_ne.
Qed.

Lemma analyze_all_grows evs self user :
  actions_of self user ⊆ actions_of (analyze_all evs self) user.
Proof.
  revert self. induction evs as [|ev evs IH]; intros self; [done|].
  etrans; [apply (analyze_log_grows ev)|]. apply IH.
Qed.

(** An actor once recorded stays recorded. *)
Lemma analyze_all_keeps_actor evs self user :
  is_Some (user_state self !! user) →
  is_Some (user_state (analyze_all evs self) !! user).
Proof.
  revert self. induction evs as [|ev evs IH]; intros self Hs; [done|].
  apply IH.
  destruct (analyze_log_cases ev self) as [->|(u & a & Hu & Ha & Tu & Ta)]; [done|].
  rewrite (analyze_log_recorded _ _ _ _ Hu Ha Tu Ta). simpl.
  destruct (decide (u = user)) as [->|Hne].
  - rewrite lookup_insert_eq. eauto.
  - by rewrite lookup_insert_ne.
Qed.

Lemma lookup_event_user user action : event user action !! "user" = Some user.
Proof. unfold event. by rewrite lookup_insert_ne, lookup_insert_eq. Qed.

Lemma lookup_event_action user action : event user action !! "action" = Some action.
Proof. unfold event. by rewrite lookup_insert_eq. Qed.

End RuleEngineFacts.

Section RuleEngineClaims.

Import RuleEngine.

Implicit Types (self : t) (ev : gmap string string) (user action : string).

(** C4. An event whose actor field or action field is absent or empty
    gives the empty violation list and leaves the engine as it was. *)
Theorem analyze_log_partial_event ev self :
  (ev !! "user" = None ∨ ev !! "user" = Some ""
   ∨ ev !! "action" = None ∨ ev !! "action" = Some "") →
  analyze_log ev self = ([], self).
Proof.
  intros H. apply analyze_log_skipped.
  destruct H as [-> | [-> | [-> | ->]]]; auto.
Qed.

Lemma truthy_false_inv (o : option string) :
  Py.truthy_opt o = false → o = None ∨ o = Some "".
Proof. destruct o as [[|c s]|]; simpl; auto; discriminate. Qed.

(** The state after recording a list of actions for one actor. *)
Lemma analyze_all_same_actor user (acts : list string) self :
  Py.truthy user = true → Forall (λ a, Py.truthy a = true) acts →
  actions_of (analyze_all (map (event user) acts) self) user
  = actions_of self user ∪ list_to_set acts.
Proof.
  intros Tu Hacts. revert self.
  induction Hacts as [|a acts Ta _ IH]; intros self; simpl.
  - set_solver.
  - unfold analyze_all in *. simpl. rewrite IH.
    rewrite (analyze_log_recorded _ _ user a
               (lookup_event_user _ _) (lookup_event_action _ _) Tu Ta).
    unfold actions_of at 1. simpl. rewrite lookup_insert_eq. simpl. set_solver.
Qed.

(** C5. Every actor's action set only grows along any sequence of calls;
    after X then Y for the same actor both are recorded, and a third call
    with X changes nothing. *)
Theorem actor_history_monotonic :
  (∀ evs self user,
      actions_of self user ⊆ actions_of (analyze_all evs self) user)
  ∧ (∀ self A X Y,
      Py.truthy A = true → Py.truthy X = true → Py.truthy Y = true →
      let s2 := analyze_all [event A X; event A Y] self in
      X ∈ actions_of s2 A ∧ Y ∈ actions_of s2 A
      ∧ (analyze_log (event A X) s2).2 = s2).
Proof.
  split; [apply analyze_all_grows|].
  intros self A X Y TA TX TY s2.
  assert (Hs2 : actions_of s2 A = actions_of self A ∪ {[X; Y]}).
  { unfold s2. change [event A X; event A Y] with (map (event A) [X; Y]).
    rewrite analyze_all_same_actor; [set_solver|done|by repeat constructor]. }
  split; [rewrite Hs2; set_solver|]. split; [rewrite Hs2; set_solver|].
  rewrite (analyze_log_recorded _ _ A X
             (lookup_event_user _ _) (lookup_event_action _ _) TA TX).
  simpl.
  assert (HA : is_Some (user_state s2 !! A)).
  { unfold s2, analyze_all. simpl.
    rewrite (analyze_log_recorded _ _ A X
               (lookup_event_user _ _) (lookup_event_action _ _) TA TX). simpl.
    rewrite (analyze_log_recorded _ _ A Y
               (lookup_event_user _ _) (lookup_event_action _ _) TA TY). simpl.
    rewrite lookup_insert_eq. eauto. }
  destruct HA as [s Hs].
  assert (Hsub : actions_of s2 A ∪ {[X]} = s).
  { assert (X ∈ actions_of s2 A) by (rewrite Hs2; set_solver).
    unfold actions_of in *. rewrite Hs in *. simpl in *. set_solver. }
  rewrite Hsub, insert_id by done. by destruct s2.
Qed.

(** C6. Once both actions of a conflict pair are in an actor's set, every
    later call for that actor that passes the guard reports the pair. *)
Theorem conflict_refires self r pairs a b user evs ev action :
  rules self !! "nist_ac2_sod" = Some r →
  conflict_actions r = Some pairs →
  (a, b) ∈ pairs →
  a ∈ actions_of self user → b ∈ actions_of self user →
  ev !! "user" = Some user → ev !! "action" = Some action →
  Py.truthy user = true → Py.truthy action = true →
  violation_msg (id r) user a b ∈ (analyze_log ev (analyze_all evs self)).1.
Proof.
  intros Hr Hp Hab Ha Hb Hu Hact Tu Ta.
  rewrite (analyze_log_recorded _ _ _ _ Hu Hact Tu Ta). simpl.
  unfold violations_for. rewrite analyze_all_rules, Hr, Hp. simpl.
  rewrite check_pairs_filter. simpl.
  apply (list_elem_of_fmap_2 (λ p, violation_msg (id r) user p.1 p.2) _ (a, b)).
  apply list_elem_of_filter. split; [|done]. simpl.
  pose proof (analyze_all_grows evs self user). set_solver.
Qed.

(** C9. What a call naming actor B reports depends on the rules and on
    B's own action set alone; calls naming other actors leave B's set,
    and so B's violations, as they were. *)
Theorem no_cross_actor_leakage self evsA evB B :
  evB !! "user" = Some B →
  Forall (λ e, e !! "user" ≠ Some B) evsA →
  actions_of (analyze_all evsA self) B = actions_of self B
  ∧ (analyze_log evB (analyze_all evsA self)).1 = (analyze_log evB self).1
  ∧ ∀ other, rules other = rules self → actions_of other B = actions_of self B →
             (analyze_log evB other).1 = (analyze_log evB self).1.
Proof.
  intros HB HA.
  assert (Hdep : ∀ s1 s2, rules s1 = rules s2 → actions_of s1 B = actions_of s2 B →
                          (analyze_log evB s1).1 = (analyze_log evB s2).1).
  { intros s1 s2 Hr Hs.
    assert (Hrec : ∀ u a, evB !! "user" = Some u → evB !! "action" = Some a →
              Py.truthy u = true → Py.truthy a = true →
              (analyze_log evB s1).1 = (analyze_log evB s2).1).
    { intros u a Hu Ha Tu Ta.
      rewrite !(analyze_log_recorded _ _ _ _ Hu Ha Tu Ta). simpl.
      assert (u = B) as -> by congruence. by rewrite Hr, Hs. }
    destruct (analyze_log_cases evB s1) as [E1|(u & a & Hu & Ha & Tu & Ta)];
      [|by eapply Hrec].
    destruct (analyze_log_cases evB s2) as [E2|(u & a & Hu & Ha & Tu & Ta)];
      [|by eapply Hrec].
    by rewrite E1, E2. }
  assert (Hsame : actions_of (analyze_all evsA self) B = actions_of self B).
  { clear Hdep. revert self.
    induction HA as [|e evs He _ IH]; intros self; [done|].
    unfold analyze_all in *. simpl. rewrite IH.
    destruct (analyze_log_cases e self) as [->|(u & a & Hu & Ha & Tu & Ta)]; [done|].
    rewrite (analyze_log_recorded _ _ _ _ Hu Ha Tu Ta). unfold actions_of. simpl.
    rewrite lookup_insert_ne; [done|]. congruence. }
  split; [done|]. split.
  - apply Hdep; [apply analyze_all_rules|done].
  - intros other Hr Hs. by apply Hdep.
Qed.

(** C10. A call that passes the guard records the action whatever the
    rules are; without the SoD rule nothing is reported, the history is
    still written, and it grows with every new action. *)
Theorem history_recorded_without_policy ev self user action :
  ev !! "user" = Some user → ev !! "action" = Some action →
  Py.truthy user = true → Py.truthy action = true →
  let out := analyze_log ev self in
  user_state out.2 = <[user := actions_of self user ∪ {[action]}]> (user_state self)
  ∧ action ∈ actions_of out.2 user
  ∧ (rules self !! "nist_ac2_sod" = None → out.1 = [])
  ∧ (action ∉ actions_of self user → out.2 ≠ self)
  ∧ (∀ acts : list string,
        rules self !! "nist_ac2_sod" = None →
        Forall (λ a, Py.truthy a = true) acts → NoDup acts →
        (length acts ≤
         size (actions_of (analyze_all (map (event user) acts) self) user))%nat).
Proof.
  intros Hu Ha Tu Ta out. unfold out.
  rewrite (analyze_log_recorded _ _ _ _ Hu Ha Tu Ta). simpl.
  split; [done|]. split.
  { unfold actions_of at 1. simpl. rewrite lookup_insert_eq. simpl. set_solver. }
  split.
  { intros Hnone. unfold violations_for. by rewrite Hnone. }
  split.
  { intros Hnot Heq. apply Hnot.
    assert (E : actions_of (mk (rules self)
                 (<[user := actions_of self user ∪ {[action]}]> (user_state self))) user
                = actions_of self user) by (by rewrite Heq).
    unfold actions_of at 1 in E. simpl in E. rewrite lookup_insert_eq in E.
    simpl in E. set_solver. }
  intros acts _ Hacts Hnd.
  rewrite analyze_all_same_actor by done.
  rewrite <- (size_list_to_set (C := gset string) acts Hnd).
  apply subseteq_size. set_solver.
Qed.

End RuleEngineClaims.

(** ** Substring facts used to read a violation message *)

Section Substrings.

Lemma startswith_app (p s : string) : Py.startswith p (p +:+ s) = true.
Proof. induction p as [|c p IH]; simpl; [done|]. by rewrite Ascii.eqb_refl. Qed.

Lemma startswith_refl (p : string) : Py.startswith p p = true.
Proof. induction p as [|c p IH]; simpl; [done|]. by rewrite Ascii.eqb_refl. Qed.

Lemma contains_unfold (needle hay : string) :
  Py.contains needle hay
  = Py.startswith needle hay ||
    match hay with
    | EmptyString => false
    | String _ hay' => Py.contains needle hay'
    end.
Proof. by destruct hay. Qed.

Lemma contains_here (x s : string) : Py.contains x (x +:+ s) = true.
Proof. by rewrite contains_unfold, startswith_app. Qed.

Lemma contains_refl (x : string) : Py.contains x x = true.
Proof. by rewrite contains_unfold, startswith_refl. Qed.

Lemma contains_app_r (x p s : string) :
  Py.contains x s = true → Py.contains x (p +:+ s) = true.
Proof.
  intros H. induction p as [|c p IH]; simpl; [done|].
  rewrite IH. apply orb_true_r.
Qed.

End Substrings.

Ltac find_substring :=
  repeat first [ apply contains_here | apply contains_refl | apply contains_app_r ].

Section Detection.

Import RuleEngine.

(** C2. On a fresh engine whose SoD rule has the single conflict pair
    (Create_Invoice, Approve_Payment), u1's Create_Invoice reports
    nothing and u1's Approve_Payment right after reports exactly one
    violation, whose message names both actions and the control id. *)
Theorem sod_detection src control_id :
  _load_rules src !! "nist_ac2_sod"
    = Some (mkRule control_id (Some [("Create_Invoice", "Approve_Payment")])) →
  let first := analyze_log (event "u1" "Create_Invoice") (init src) in
  let second := analyze_log (event "u1" "Approve_Payment") first.2 in
  first.1 = []
  ∧ ∃ msg, second.1 = [msg]
      ∧ msg = violation_msg control_id "u1" "Create_Invoice" "Approve_Payment"
      ∧ Py.contains "Create_Invoice" msg = true
      ∧ Py.contains "Approve_Payment" msg = true
      ∧ Py.contains control_id msg = true.
Proof.
  intros Hrule first second. unfold second, first.
  rewrite (analyze_log_recorded _ _ "u1" "Create_Invoice"
             (lookup_event_user _ _) (lookup_event_action _ _) eq_refl eq_refl).
  simpl.
  rewrite (analyze_log_recorded _ _ "u1" "Approve_Payment"
             (lookup_event_user _ _) (lookup_event_action _ _) eq_refl eq_refl).
  simpl. unfold violations_for, actions_of. simpl.
  rewrite Hrule, lookup_insert_eq, lookup_empty. simpl. split.
  - rewrite (bool_decide_eq_false_2 ("Approve_Payment" ∈ _)) by set_solver.
    by rewrite andb_false_r.
  - rewrite !bool_decide_eq_true_2 by set_solver. simpl.
    eexists. split; [reflexivity|]. split; [reflexivity|].
    unfold violation_msg. repeat split; find_substring.
Qed.

End Detection.

(** ** The pipeline *)

Section PipelineFacts.

Variable env : Env.

Implicit Types (w : World) (raw : string) (sd : gmap string string).

(** One pass of the reporting loop, seen from outside. *)
Definition violation_artifact raw sd (integrity_status : bool)
    (v : string) (a : Reporter.Artifact) : Prop :=
  ∃ uuid now,
    a = Reporter.generate_evidence_artifact uuid now raw sd integrity_status (Some v).

Definition violation_row sd (log_id : nat)
    (a : Reporter.Artifact) (r : Database.AuditItem) : Prop :=
  Database.item_LogID r = log_id
  ∧ Database.UserID r = default "unknown" (sd !! "user")
  ∧ Database.Action r = default "unknown" (sd !! "action")
  ∧ Database.Verdict r = "Violation"
  ∧ Database.NIST_Control r = "AC-5"
  ∧ Database.EvidenceArtifact r = Some a.

Definition clear_row sd (log_id : nat) (r : Database.AuditItem) : Prop :=
  Database.item_LogID r = log_id
  ∧ Database.UserID r = default "unknown" (sd !! "user")
  ∧ Database.Action r = default "unknown" (sd !! "action")
  ∧ Database.Verdict r = "Clear"
  ∧ Database.NIST_Control r = "AC-5"
  ∧ Database.EvidenceArtifact r = None.

Lemma report_violation_outcome raw sd integrity_status log_id v w :
  report_violation env raw sd integrity_status log_id v w
  = let a := Reporter.generate_evidence_artifact (uuid4 env (ticks w))
               (isoformat_now env (S (ticks w))) raw sd integrity_status (Some v) in
    (tt, mkWorld (engine w) (artifacts w ++ [a]) (IntegrityBaseline w)
           (AuditItems w ++
              [Database.mkAuditItem (S (length (AuditItems w))) log_id
                 (isoformat_now env (S (S (ticks w))))
                 (default "unknown" (sd !! "user"))
                 (default "unknown" (sd !! "action"))
                 "Violation" "AC-5" (Some a)])
           (posted w) (S (S (S (ticks w))))).
Proof. reflexivity. Qed.

Lemma report_loop raw sd integrity_status log_id (violations : list string) w :
  ∃ arts rows,
    for_each violations (report_violation env raw sd integrity_status log_id) w
    = (tt, mkWorld (engine w) (artifacts w ++ arts) (IntegrityBaseline w)
                   (AuditItems w ++ rows) (posted w)
                   (ticks w + 3 * length violations))
    ∧ Forall2 (violation_artifact raw sd integrity_status) violations arts
    ∧ Forall2 (violation_row sd log_id) arts rows.
Proof.
  revert w. induction violations as [|v vs IH]; intros w.
  - exists [], []. simpl. rewrite !app_nil_r, Nat.add_0_r.
    split; [by destruct w|]. split; constructor.
  - simpl. unfold mbind, M_bind at 1.
    rewrite report_violation_outcome. simpl.
    match goal with
    | |- context [for_each vs _ ?w1] =>
        destruct (IH w1) as (arts & rows & -> & Harts & Hrows)
    end.
    simpl. eexists (_ :: arts), (_ :: rows). split.
    + rewrite <- !app_assoc. simpl. do 2 f_equal. lia.
    + split; constructor; try done. by eexists _, _.
Qed.

(** Every message of the engine is a non-empty string. *)
Lemma violations_truthy ev (self : RuleEngine.t) :
  Forall (λ v, Py.truthy v = true) (RuleEngine.analyze_log ev self).1.
Proof.
  destruct (analyze_log_cases ev self) as [->|(u & a & Hu & Ha & Tu & Ta)];
    [constructor|].
  rewrite (analyze_log_recorded _ _ _ _ Hu Ha Tu Ta). simpl.
  unfold violations_for. destruct (RuleEngine.rules self !! "nist_ac2_sod"); [|constructor].
  rewrite check_pairs_filter. simpl. apply Forall_forall.
  intros v Hv. apply list_elem_of_fmap in Hv as (p & -> & _). reflexivity.
Qed.

(** Steps 2 to 4 in closed form. *)
Lemma process_outcome raw current_hash integrity_status w :
  let sd := fallback raw (ollama env (ticks w) raw) in
  let out := RuleEngine.analyze_log sd (engine w) in
  let log_id := S (length (IntegrityBaseline w)) in
  ∃ arts rows n,
    process env raw current_hash integrity_status w
    = (true,
       mkWorld out.2 (artifacts w ++ arts)
         (IntegrityBaseline w ++
            [Database.mkBaseline log_id raw current_hash
               (current_timestamp env (S (ticks w)))])
         (AuditItems w ++ rows) (posted w ++ [raw]) n)
    ∧ ((out.1 = [] ∧ arts = [] ∧ ∃ r, rows = [r] ∧ clear_row sd log_id r)
       ∨ (out.1 ≠ []
          ∧ Forall2 (violation_artifact raw sd integrity_status) out.1 arts
          ∧ Forall2 (violation_row sd log_id) arts rows)).
Proof.
  intros sd out log_id.
  unfold process, parse_log_with_phi3, analyze_log, save_log_baseline, tick,
    get_world, put_world, mbind, M_bind, mret, M_ret. simpl.
  fold sd. fold out. destruct out as [violations e] eqn:Hout. simpl.
  destruct violations as [|v vs].
  - unfold report, save_audit_item, tick, get_world, put_world,
      mbind, M_bind, mret, M_ret. simpl.
    eexists [], [_], _. rewrite app_nil_r. split; [reflexivity|].
    left. split; [done|]. split; [done|]. eexists. split; [reflexivity|].
    by repeat split.
  - unfold report.
    match goal with
    | |- context [for_each (v :: vs) (report_violation _ ?r ?s ?i ?l) ?w1] =>
        destruct (report_loop r s i l (v :: vs) w1)
          as (arts & rows & -> & Harts & Hrows)
    end.
    simpl. exists arts, rows. eexists. split; [reflexivity|].
    right. by repeat split.
Qed.

(** The tampering branch in closed form. *)
Lemma tampering_outcome raw w :
  tampering env raw w
  = (false,
     mkWorld (engine w)
       (artifacts w ++
          [Reporter.generate_evidence_artifact
             (uuid4 env (ticks w)) (isoformat_now env (S (ticks w))) raw
             (<["Event" := "Tampering Detected"]> ∅) false
             (Some "Hash Mismatch - Potential Log Tampering")])
       (IntegrityBaseline w) (AuditItems w) (posted w) (S (S (ticks w)))).
Proof. reflexivity. Qed.

(** The integrity check fails: a baseline was supplied and differs. *)
Definition integrity_fails raw (expected_hash : option string) : bool :=
  Py.truthy_opt expected_hash
  && negb (Hasher.verify_integrity raw (default "" expected_hash)).

Lemma run_pipeline_branches raw expected_hash w :
  run_pipeline env raw expected_hash w
  = if integrity_fails raw expected_hash
    then tampering env raw w
    else process env raw (Hasher.generate_sha256 raw) true w.
Proof.
  unfold run_pipeline, integrity_fails.
  destruct (Py.truthy_opt expected_hash); [|done].
  by destruct (Hasher.verify_integrity raw (default "" expected_hash)) eqn:E.
Qed.

End PipelineFacts.

(** ** [split] on a text that carries the separator once *)

Section SplitFacts.

Implicit Types (s p cur sep : string) (c : ascii).

Lemma app_cons c s1 s2 : String c s1 +:+ s2 = String c (s1 +:+ s2).
Proof. reflexivity. Qed.

Lemma app_empty_l s : "" +:+ s = s.
Proof. reflexivity. Qed.

Lemma app_empty_r s : s +:+ "" = s.
Proof. induction s as [|c s IH]; [done|]. by rewrite app_cons, IH. Qed.

Lemma app_assoc_s s1 s2 s3 : (s1 +:+ s2) +:+ s3 = s1 +:+ s2 +:+ s3.
Proof. induction s1 as [|c s1 IH]; [done|]. by rewrite !app_cons, IH. Qed.

(** A one-character needle. *)
Lemma contains_char_cons c c' s :
  Py.contains (String c "") (String c' s)
  = Ascii.eqb c c' || Py.contains (String c "") s.
Proof. simpl. by destruct (Ascii.eqb c c'). Qed.

Lemma contains_char_app c s1 s2 :
  Py.contains (String c "") (s1 +:+ s2)
  = Py.contains (String c "") s1 || Py.contains (String c "") s2.
Proof.
  induction s1 as [|c' s1 IH].
  - rewrite app_empty_l. by destruct s2.
  - rewrite app_cons, !contains_char_cons, IH. by rewrite orb_assoc.
Qed.

(** Characters of a matched separator are passed over. *)
Lemma split_from_skip sep p s cur :
  Py.split_from sep (p +:+ s) (String.length p) cur = Py.split_from sep s 0 cur.
Proof. induction p as [|c p IH]; [done|]. rewrite app_cons. apply IH. Qed.

(** A text without the first character of the separator joins the
    field being read. *)
Lemma split_from_free c sep' p s cur :
  Py.contains (String c "") p = false →
  Py.split_from (String c sep') (p +:+ s) 0 cur
  = Py.split_from (String c sep') s 0 (cur +:+ p).
Proof.
  revert cur. induction p as [|c' p IH]; intros cur Hfree.
  - by rewrite app_empty_l, app_empty_r.
  - rewrite contains_char_cons in Hfree.
    apply orb_false_elim in Hfree as [Hc Hp].
    rewrite app_cons. cbn [Py.split_from Py.startswith]. rewrite Hc.
    rewrite IH by done. by rewrite app_assoc_s, app_cons, app_empty_l.
Qed.

(** The separator closes the field being read. *)
Lemma split_from_sep c sep' s cur :
  Py.split_from (String c sep') (String c sep' +:+ s) 0 cur
  = cur :: Py.split_from (String c sep') s 0 "".
Proof.
  rewrite app_cons. cbn [Py.split_from]. rewrite <- app_cons.
  rewrite startswith_app. f_equal.
  replace (String.length (String c sep') - 1) with (String.length sep')
    by (simpl; lia).
  apply split_from_skip.
Qed.

(** The first field is the field being read and a prefix of the text. *)
Lemma split_from_head sep s cur :
  ∃ p rest tl, s = p +:+ rest ∧ Py.split_from sep s 0 cur = (cur +:+ p) :: tl.
Proof.
  revert cur. induction s as [|c s IH]; intros cur.
  - exists "", "", []. by rewrite !app_empty_r.
  - cbn [Py.split_from]. destruct (Py.startswith sep (String c s)).
    + exists "", (String c s). eexists. by rewrite app_empty_r, app_empty_l.
    + destruct (IH (cur +:+ String c "")) as (p & rest & tl & -> & ->).
      exists (String c p), rest, tl.
      by rewrite app_assoc_s, !app_cons, app_empty_l.
Qed.

Lemma split_free c sep' p :
  Py.contains (String c "") p = false →
  Py.split (String c sep') p = [p].
Proof.
  intros Hfree. unfold Py.split.
  rewrite <- (app_empty_r p) at 1. by rewrite split_from_free, app_empty_l.
Qed.

Lemma split_once c sep' p s :
  Py.contains (String c "") p = false →
  Py.split (String c sep') (p +:+ String c sep' +:+ s)
  = p :: Py.split (String c sep') s.
Proof.
  intros Hfree. unfold Py.split.
  by rewrite split_from_free, split_from_sep, app_empty_l.
Qed.

End SplitFacts.

(** ** The textual fallback on a log of the expected shape *)

Section FallbackFacts.

(** A log [<pre>User <actor> executed action: <action><rest>] whose
    parts are free of the letter that opens ["User "], whose actor and
    action are single words, and whose rest is empty or opens with a
    space, is parsed into its actor and its action. *)
Lemma fallback_parse_pattern (pre actor action rest : string) :
  Py.contains "U" pre = false → Py.contains "U" actor = false →
  Py.contains "U" action = false → Py.contains "U" rest = false →
  Py.contains " " actor = false → Py.contains " " action = false →
  (rest = "" ∨ ∃ rest', rest = " " +:+ rest') →
  fallback_parse (pre +:+ "User " +:+ actor +:+ " executed action: " +:+ action +:+ rest)
  = RuleEngine.event actor action.
Proof.
  intros Upre Uactor Uaction Urest Sactor Saction Hrest. unfold fallback_parse.
  rewrite (split_once "U" "ser " pre) by done.
  rewrite (split_free "U" "ser ").
  2:{ rewrite !contains_char_app, Uactor, Uaction, Urest. reflexivity. }
  cbn [lookup list_lookup].
  rewrite (split_once " " "executed action: " actor) by done.
  cbn [lookup list_lookup].
  unfold Py.split at 1. rewrite (split_from_free " " "executed action: " action) by done.
  destruct (split_from_head " executed action: " rest ("" +:+ action))
    as (p & r & tl & Hp & ->).
  cbn [lookup list_lookup]. rewrite app_empty_l.
  assert (Hfield : Py.split " " (action +:+ p) !! 0%nat = Some action).
  { destruct p as [|c p].
    - by rewrite app_empty_r, (split_free " " "").
    - destruct Hrest as [->|[rest' ->]]; [discriminate|].
      rewrite !app_cons, app_empty_l in Hp. injection Hp as <- _.
      change (String " " p) with (" " +:+ p).
      by rewrite (split_once " " "" action). }
  by rewrite Hfield.
Qed.

Lemma contains_marker (pre actor tail : string) :
  Py.contains "executed action:" (pre +:+ "User " +:+ actor +:+ " executed action: " +:+ tail)
  = true.
Proof.
  change (" executed action: " +:+ tail)
    with (" " +:+ "executed action:" +:+ " " +:+ tail).
  find_substring.
Qed.

End FallbackFacts.

(** ** Fixtures: the demonstration run of [main.py] *)

Module Scenario.

(** The Ollama endpoint cannot be reached: the parser returns [{}]. *)
Definition offline : Env :=
  {| ollama := λ _ _, ∅;
     uuid4 := λ _, "3f2b8c1e-7d64-4a0b-9c55-1e2f3a4b5c6d";
     isoformat_now := λ _, "2024-06-14T15:16:01";
     current_timestamp := λ _, "2024-06-14 15:16:01" |}.

(** The parser finds an actor and no action. *)
Definition actor_only : Env :=
  {| ollama := λ _ _, <["user" := "bob"]> ∅;
     uuid4 := uuid4 offline;
     isoformat_now := isoformat_now offline;
     current_timestamp := current_timestamp offline |}.

Definition one_pair : RuleEngine.Source :=
  RuleEngine.Loaded (RuleEngine.Mapping (Some
    (<["nist_ac2_sod" :=
         RuleEngine.mkRule "AC-5" (Some [("Create_Invoice", "Approve_Payment")])]> ∅))).

Definition two_pairs : RuleEngine.Source :=
  RuleEngine.Loaded (RuleEngine.Mapping (Some
    (<["nist_ac2_sod" :=
         RuleEngine.mkRule "AC-5"
           (Some [("Create_Invoice", "Approve_Payment");
                  ("Create_Invoice", "Delete_Invoice")])]> ∅))).

(** The process right after start-up, on empty tables. *)
Definition start (src : RuleEngine.Source) : World :=
  {| engine := RuleEngine.init src; artifacts := []; IntegrityBaseline := [];
     AuditItems := []; posted := []; ticks := 0 |}.

Definition log_create : string :=
  "Jun 14 15:16:01 finance_app system[1]: User u_finance_01 executed action: Create_Invoice ID=INV-2024-001".
Definition log_approve : string :=
  "Jun 14 15:16:46 finance_app system[1]: User u_finance_01 executed action: Approve_Payment ID=INV-2024-001".
Definition log_delete : string :=
  "Jun 14 15:17:31 finance_app system[1]: User u_finance_01 executed action: Delete_Invoice ID=INV-2024-001".

Definition log_original : string :=
  "Jun 14 15:16:01 combo sshd(pam_unix)[19939]: authentication failure; logname= uid=0 euid=0 tty=NODEV host=  user=root".
Definition log_tampered : string :=
  "Jun 14 15:16:01 combo sshd(pam_unix)[19939]: accepted password; logname= uid=0 euid=0 tty=NODEV host=  user=root".

(** Several lines through the pipeline, one after the other. *)
Definition run_all (env : Env) (logs : list string) (w : World) : World :=
  fold_left (λ w raw, (run_pipeline env raw None w).2) logs w.

End Scenario.

Example sha256_original :
  Hasher.generate_sha256 Scenario.log_original
  = "eb9427bc49e04b50319ed64e81576fe6640de5a1a88aeecd805c0af1e7925cd0".
Proof. vm_compute. reflexivity. Qed.

Example fallback_parse_create :
  fallback_parse Scenario.log_create = RuleEngine.event "u_finance_01" "Create_Invoice".
Proof.
  apply (fallback_parse_pattern "Jun 14 15:16:01 finance_app system[1]: "
           "u_finance_01" "Create_Invoice" " ID=INV-2024-001"); try reflexivity.
  right. by eexists.
Qed.

(** ** Claims on [run_pipeline] *)

Section PipelineClaims.

Implicit Types (env : Env) (w : World) (raw : string).

(** C1. When a supplied baseline differs from the digest of the raw log,
    [run_pipeline] returns [False] and its only effect is one VIOLATION
    artifact with [IntegrityVerified = False] and the tampering reason:
    no request to the parser, no change of the engine, no baseline row
    and no finding row. *)
Theorem tamper_short_circuit env raw expected w :
  Py.truthy expected = true →
  Hasher.generate_sha256 raw ≠ expected →
  ∃ artifact,
    run_pipeline env raw (Some expected) w
    = (false,
       mkWorld (engine w) (artifacts w ++ [artifact]) (IntegrityBaseline w)
               (AuditItems w) (posted w) (S (S (ticks w))))
    ∧ Reporter.Status artifact = "VIOLATION"
    ∧ Reporter.IntegrityVerified (Reporter.Source artifact) = false
    ∧ Reporter.Raw (Reporter.Source artifact) = raw
    ∧ Reporter.ViolationReason artifact
      = Some "Hash Mismatch - Potential Log Tampering".
Proof.
  intros Hsupplied Hdiff.
  rewrite run_pipeline_branches. unfold integrity_fails, Hasher.verify_integrity.
  simpl. rewrite Hsupplied.
  apply String.eqb_neq in Hdiff. rewrite Hdiff. simpl.
  rewrite tampering_outcome. eexists. split; [reflexivity|]. by repeat split.
Qed.

(** The rows written for the violations of one log line. *)
Lemma violation_rows raw sd integrity_status log_id
    (violations : list string) arts rows :
  Forall (λ v, Py.truthy v = true) violations →
  Forall2 (violation_artifact raw sd integrity_status) violations arts →
  Forall2 (violation_row sd log_id) arts rows →
  Forall (λ r, Database.item_LogID r = log_id) rows
  ∧ Forall2 (λ v r,
       Database.Verdict r = "Violation"
       ∧ ∃ a, Database.EvidenceArtifact r = Some a
            ∧ Reporter.Status a = "VIOLATION"
            ∧ Reporter.ViolationReason a = Some v) violations rows.
Proof.
  intros Htruthy Harts. revert rows.
  induction Harts as [|v a vs arts (uuid & now & ->) _ IH]; intros rows Hrows.
  - apply Forall2_nil_inv_l in Hrows as ->. split; constructor.
  - apply Forall2_cons_inv_l in Hrows as (r & rows' & Hr & Hrows' & ->).
    apply Forall_cons in Htruthy as [Tv Tvs].
    destruct (IH Tvs rows' Hrows') as [IH1 IH2].
    destruct Hr as (Hid & _ & _ & Hverdict & _ & Hev).
    split; constructor; try done.
    split; [done|]. eexists. split; [done|].
    unfold Reporter.generate_evidence_artifact. simpl. by rewrite Tv.
Qed.

(** C3, as the code has it. A log line that is processed to the end gets
    one baseline row and, referring to it, one Clear row with an empty
    evidence payload when nothing is reported, or one Violation row for
    each reported violation. *)
Theorem findings_per_log_line env raw expected_hash w w' :
  run_pipeline env raw expected_hash w = (true, w') →
  let sd := fallback raw (ollama env (ticks w) raw) in
  let violations := (RuleEngine.analyze_log sd (engine w)).1 in
  let log_id := S (length (IntegrityBaseline w)) in
  ∃ b rows,
    IntegrityBaseline w' = (IntegrityBaseline w ++ [b])%list
    ∧ Database.LogID b = log_id
    ∧ Database.LogLine b = raw
    ∧ Database.HashSHA256 b = Hasher.generate_sha256 raw
    ∧ AuditItems w' = (AuditItems w ++ rows)%list
    ∧ Forall (λ r, Database.item_LogID r = log_id) rows
    ∧ ((violations = []
        ∧ ∃ r, rows = [r] ∧ Database.Verdict r = "Clear"
               ∧ Database.EvidenceArtifact r = None)
       ∨ (violations ≠ []
          ∧ Forall2 (λ v r,
               Database.Verdict r = "Violation"
               ∧ ∃ a, Database.EvidenceArtifact r = Some a
                    ∧ Reporter.Status a = "VIOLATION"
                    ∧ Reporter.ViolationReason a = Some v) violations rows)).
Proof.
  intros Hrun sd violations log_id. rewrite run_pipeline_branches in Hrun.
  destruct (integrity_fails raw expected_hash).
  { rewrite tampering_outcome in Hrun. discriminate. }
  destruct (process_outcome env raw (Hasher.generate_sha256 raw) true w)
    as (arts & rows & n & Hproc & Hcases).
  rewrite Hproc in Hrun. injection Hrun as <-. simpl.
  eexists _, rows. do 5 (split; [reflexivity|]).
  destruct Hcases as [(Hnone & _ & r & -> & Hr) | (Hsome & Harts & Hrows)].
  - destruct Hr as (Hid & _ & _ & Hverdict & _ & Hev).
    split; [by repeat constructor|]. left. split; [done|]. by exists r.
  - destruct (violation_rows raw sd true log_id _ arts rows
                (violations_truthy sd (engine w)) Harts Hrows) as [Hids Hvs].
    split; [done|]. right. by split.
Qed.

End PipelineClaims.

(** ** The claims on concrete runs *)

Section Witnesses.

Import RuleEngine Scenario.

(** C4 on the two partial events [{user: u1}] and [{action: x}]. *)
Lemma analyze_log_partial_event_witness :
  analyze_log (<["user" := "u1"]> ∅) (init one_pair) = ([], init one_pair)
  ∧ analyze_log (<["action" := "x"]> ∅) (init one_pair) = ([], init one_pair).
Proof.
  split.
  - apply analyze_log_partial_event. right. right. left. reflexivity.
  - apply analyze_log_partial_event. left. reflexivity.
Defined.

(** C5 on actor [A] with the actions [X], [Y] and [X] again. *)
Lemma actor_history_monotonic_witness :
  let s2 := analyze_all [event "A" "X"; event "A" "Y"] (init one_pair) in
  "X" ∈ actions_of s2 "A" ∧ "Y" ∈ actions_of s2 "A"
  ∧ (analyze_log (event "A" "X") s2).2 = s2.
Proof.
  apply (proj2 actor_history_monotonic (init one_pair) "A" "X" "Y"); reflexivity.
Defined.

(** C2 on the rule of the shipped shape, control id [AC-5]. *)
Lemma sod_detection_witness :
  let first := analyze_log (event "u1" "Create_Invoice") (init one_pair) in
  let second := analyze_log (event "u1" "Approve_Payment") first.2 in
  first.1 = []
  ∧ ∃ msg, second.1 = [msg]
      ∧ msg = violation_msg "AC-5" "u1" "Create_Invoice" "Approve_Payment"
      ∧ Py.contains "Create_Invoice" msg = true
      ∧ Py.contains "Approve_Payment" msg = true
      ∧ Py.contains "AC-5" msg = true.
Proof. apply (sod_detection one_pair "AC-5"). reflexivity. Defined.

(** C6: u1 has created and approved; a later unrelated action of u1,
    after another actor's call, reports the pair again. *)
Lemma conflict_refires_witness :
  violation_msg "AC-5" "u1" "Create_Invoice" "Approve_Payment"
  ∈ (analyze_log (event "u1" "Login")
       (analyze_all [event "u2" "Login"]
          (analyze_all [event "u1" "Create_Invoice"; event "u1" "Approve_Payment"]
             (init one_pair)))).1.
Proof.
  apply (conflict_refires
           (analyze_all [event "u1" "Create_Invoice"; event "u1" "Approve_Payment"]
              (init one_pair))
           (mkRule "AC-5" (Some [("Create_Invoice", "Approve_Payment")]))
           [("Create_Invoice", "Approve_Payment")]
           "Create_Invoice" "Approve_Payment" "u1" [event "u2" "Login"]
           (event "u1" "Login") "Login"); try reflexivity.
  apply list_elem_of_here.
Defined.

(** C9: what alice did does not show in what is reported for bob. *)
Lemma no_cross_actor_leakage_witness :
  let evsA := [event "alice" "Create_Invoice"; event "alice" "Approve_Payment"] in
  let evB := event "bob" "Approve_Payment" in
  actions_of (analyze_all evsA (init one_pair)) "bob" = actions_of (init one_pair) "bob"
  ∧ (analyze_log evB (analyze_all evsA (init one_pair))).1
    = (analyze_log evB (init one_pair)).1
  ∧ ∀ other, rules other = rules (init one_pair) →
             actions_of other "bob" = actions_of (init one_pair) "bob" →
             (analyze_log evB other).1 = (analyze_log evB (init one_pair)).1.
Proof.
  apply (no_cross_actor_leakage (init one_pair)
           [event "alice" "Create_Invoice"; event "alice" "Approve_Payment"]
           (event "bob" "Approve_Payment") "bob").
  - reflexivity.
  - repeat constructor; vm_compute; discriminate.
Defined.

(** C10 on an engine without rules. *)
Lemma history_recorded_without_policy_witness :
  let self := init Unreadable in
  let out := analyze_log (event "u1" "x") self in
  user_state out.2 = <["u1" := actions_of self "u1" ∪ {["x"]}]> (user_state self)
  ∧ "x" ∈ actions_of out.2 "u1"
  ∧ (rules self !! "nist_ac2_sod" = None → out.1 = [])
  ∧ ("x" ∉ actions_of self "u1" → out.2 ≠ self)
  ∧ (∀ acts : list string,
        rules self !! "nist_ac2_sod" = None →
        Forall (λ a, Py.truthy a = true) acts → NoDup acts →
        (length acts ≤
         size (actions_of (analyze_all (map (event "u1") acts) self) "u1"))%nat).
Proof.
  apply (history_recorded_without_policy (event "u1" "x") (init Unreadable) "u1" "x");
    reflexivity.
Defined.

(** C1 on the tampered line checked against the digest of the original. *)
Lemma tamper_short_circuit_witness :
  ∃ artifact,
    run_pipeline offline log_tampered
      (Some (Hasher.generate_sha256 log_original)) (start one_pair)
    = (false,
       mkWorld (engine (start one_pair)) (artifacts (start one_pair) ++ [artifact])
               (IntegrityBaseline (start one_pair)) (AuditItems (start one_pair))
               (posted (start one_pair)) (S (S (ticks (start one_pair)))))
    ∧ Reporter.Status artifact = "VIOLATION"
    ∧ Reporter.IntegrityVerified (Reporter.Source artifact) = false
    ∧ Reporter.Raw (Reporter.Source artifact) = log_tampered
    ∧ Reporter.ViolationReason artifact
      = Some "Hash Mismatch - Potential Log Tampering".
Proof.
  apply (tamper_short_circuit offline log_tampered
           (Hasher.generate_sha256 log_original) (start one_pair)).
  - vm_compute. reflexivity.
  - vm_compute. discriminate.
Defined.

(** C3 on the first line of the SoD sequence. *)
Lemma findings_per_log_line_witness :
  let w := start two_pairs in
  let w' := (run_pipeline offline log_create None w).2 in
  let violations :=
    (analyze_log (fallback log_create (ollama offline (ticks w) log_create))
       (engine w)).1 in
  ∃ b rows,
    IntegrityBaseline w' = (IntegrityBaseline w ++ [b])%list
    ∧ Database.LogID b = S (length (IntegrityBaseline w))
    ∧ Database.LogLine b = log_create
    ∧ Database.HashSHA256 b = Hasher.generate_sha256 log_create
    ∧ AuditItems w' = (AuditItems w ++ rows)%list
    ∧ Forall (λ r, Database.item_LogID r = S (length (IntegrityBaseline w))) rows
    ∧ ((violations = []
        ∧ ∃ r, rows = [r] ∧ Database.Verdict r = "Clear"
               ∧ Database.EvidenceArtifact r = None)
       ∨ (violations ≠ []
          ∧ Forall2 (λ v r,
               Database.Verdict r = "Violation"
               ∧ ∃ a, Database.EvidenceArtifact r = Some a
                    ∧ Reporter.Status a = "VIOLATION"
                    ∧ Reporter.ViolationReason a = Some v) violations rows)).
Proof.
  apply (findings_per_log_line offline log_create None (start two_pairs)
           (run_pipeline offline log_create None (start two_pairs)).2).
  vm_compute. reflexivity.
Defined.

End Witnesses.

Section Counterexamples.

Import RuleEngine Scenario.

(** C3 as worded does not hold: with two conflict pairs sharing
    Create_Invoice, the third line of one actor is processed to the end
    and leaves two finding rows, both for that line's LogID. *)
Lemma single_finding_counterexample :
  let w2 := run_all offline [log_create; log_approve] (start two_pairs) in
  let out := run_pipeline offline log_delete None w2 in
  out.1 = true
  ∧ length (AuditItems out.2) = (length (AuditItems w2) + 2)%nat
  ∧ map Database.item_LogID (drop (length (AuditItems w2)) (AuditItems out.2)) = [3; 3]%nat
  ∧ map Database.Verdict (drop (length (AuditItems w2)) (AuditItems out.2))
    = ["Violation"; "Violation"].
Proof. vm_compute. repeat split. Qed.

End Counterexamples.


(** * Further properties of the code *)

(** ** The digest is 64 lower-case hexadecimal characters *)

Section DigestShape.

Import Hasher.

Local Open Scope Z_scope.

Lemma blocks_length fuel (h ws : list Z) :
  length h = 8%nat → length (blocks fuel h ws) = 8%nat.
Proof.
  revert h ws. induction fuel as [|k IH]; intros h ws Hh; [done|].
  destruct ws as [|x ws]; [done|]. cbn [blocks]. by apply IH.
Qed.

Lemma be_bytes_length n x : length (be_bytes n x) = n.
Proof. induction n as [|k IH]; [done|]. cbn [be_bytes length]. by rewrite IH. Qed.

Lemma be_bytes_range n x : Forall (λ b, 0 ≤ b < 256) (be_bytes n x).
Proof.
  induction n as [|k IH]; [constructor|]. cbn [be_bytes]. constructor; [|done].
  apply Z.mod_pos_bound. lia.
Qed.

Lemma flat_map_be_bytes_length (l : list Z) :
  length (flat_map (be_bytes 4) l) = (4 * length l)%nat.
Proof.
  induction l as [|x l IH]; [done|].
  cbn [flat_map]. rewrite length_app, be_bytes_length, IH. simpl. lia.
Qed.

Lemma flat_map_be_bytes_range (l : list Z) :
  Forall (λ b, 0 ≤ b < 256) (flat_map (be_bytes 4) l).
Proof.
  induction l as [|x l IH]; [constructor|].
  cbn [flat_map]. apply Forall_app. split; [apply be_bytes_range|done].
Qed.

Lemma sha256_length msg : length (sha256 msg) = 32%nat.
Proof.
  unfold sha256. rewrite flat_map_be_bytes_length, blocks_length; [done|].
  vm_compute. reflexivity.
Qed.

Lemma hexdigest_length bs : String.length (hexdigest bs) = (2 * length bs)%nat.
Proof.
  induction bs as [|b bs IH]; [done|].
  cbn [hexdigest String.length length]. rewrite IH. lia.
Qed.

Lemma hex_digit_lower d :
  0 ≤ d < 16 → Py.contains (String (hex_digit d) "") "0123456789abcdef" = true.
Proof.
  intros Hd.
  assert (Hcases : d = 0 ∨ d = 1 ∨ d = 2 ∨ d = 3 ∨ d = 4 ∨ d = 5 ∨ d = 6 ∨ d = 7
                   ∨ d = 8 ∨ d = 9 ∨ d = 10 ∨ d = 11 ∨ d = 12 ∨ d = 13 ∨ d = 14
                   ∨ d = 15) by lia.
  repeat (destruct Hcases as [-> | Hcases]; [vm_compute; reflexivity|]).
  subst d. vm_compute. reflexivity.
Qed.

Lemma hexdigest_lower bs :
  Forall (λ b, 0 ≤ b < 256) bs →
  Forall (λ c, Py.contains (String c "") "0123456789abcdef" = true)
         (list_ascii_of_string (hexdigest bs)).
Proof.
  induction 1 as [|b bs Hb _ IH]; [constructor|].
  cbn [hexdigest list_ascii_of_string].
  constructor; [|constructor; [|done]]; apply hex_digit_lower.
  - split; [apply Z.div_pos; lia|apply Z.div_lt_upper_bound; lia].
  - apply Z.mod_pos_bound. lia.
Qed.

(** X1. Whatever the content, [generate_sha256] returns 64 characters,
    each one of [0123456789abcdef]. *)
Theorem digest_shape content :
  String.length (generate_sha256 content) = 64%nat
  ∧ Forall (λ c, Py.contains (String c "") "0123456789abcdef" = true)
           (list_ascii_of_string (generate_sha256 content)).
Proof.
  unfold generate_sha256. split.
  - by rewrite hexdigest_length, sha256_length.
  - apply hexdigest_lower. unfold sha256. apply flat_map_be_bytes_range.
Qed.

Lemma digest_truthy content : Py.truthy (generate_sha256 content) = true.
Proof.
  pose proof (proj1 (digest_shape content)) as Hlen.
  by destruct (generate_sha256 content).
Qed.

End DigestShape.

(** ** The control signal of [run_pipeline] *)

Section Verdict.

Implicit Types (env : Env) (w : World) (raw : string).


(** X3. An empty baseline switches the integrity check off: the run is
    the run without a baseline, although the check itself would have
    failed, no digest being empty. *)
Theorem empty_baseline_skips_check env raw w :
  run_pipeline env raw (Some "") w = run_pipeline env raw None w
  ∧ Hasher.verify_integrity raw "" = false.
Proof.
  split; [reflexivity|].
  unfold Hasher.verify_integrity. apply String.eqb_neq.
  pose proof (digest_truthy raw) as Ht. by destruct (Hasher.generate_sha256 raw).
Qed.

End Verdict.

(** ** More on the rule engine *)

Section RuleEngineMore.

Import RuleEngine.

Implicit Types (self : t) (ev : gmap string string) (user action : string).

(** X4. A call that passes the guard reports exactly the conflict pairs of
    the rule [nist_ac2_sod] whose two actions are both in the actor's set
    once the new action is added, one message each, in the order of the
    configured list; so never more messages than configured pairs. *)
Theorem analyze_log_reports ev self user action r :
  ev !! "user" = Some user → ev !! "action" = Some action →
  Py.truthy user = true → Py.truthy action = true →
  rules self !! "nist_ac2_sod" = Some r →
  let known := actions_of self user ∪ {[action]} in
  let pairs := default [] (conflict_actions r) in
  (analyze_log ev self).1
  = map (λ p, violation_msg (id r) user p.1 p.2)
        (filter (λ p, p.1 ∈ known ∧ p.2 ∈ known) pairs)
  ∧ (length (analyze_log ev self).1 ≤ length pairs)%nat.
Proof.
  intros Hu Ha Tu Ta Hr known pairs.
  rewrite (analyze_log_recorded _ _ _ _ Hu Ha Tu Ta). simpl.
  unfold violations_for. rewrite Hr, check_pairs_filter. simpl.
  split; [done|]. rewrite length_map. apply length_filter.
Qed.

(** The action an event adds to the history of [user], if any. *)
Definition accepted (user : string) (ev : gmap string string) : option string :=
  match ev !! "user", ev !! "action" with
  | Some u, Some a =>
      if Py.truthy u && Py.truthy a && bool_decide (u = user) then Some a else None
  | _, _ => None
  end.

(** The actor and action of an event that passes the guard. *)
Definition passes (ev : gmap string string) : option (string * string) :=
  match ev !! "user", ev !! "action" with
  | Some u, Some a => if Py.truthy u && Py.truthy a then Some (u, a) else None
  | _, _ => None
  end.

Lemma analyze_log_state ev self :
  (analyze_log ev self).2
  = match passes ev with
    | Some (u, a) =>
        mk (rules self) (<[u := actions_of self u ∪ {[a]}]> (user_state self))
    | None => self
    end.
Proof.
  unfold passes.
  destruct (ev !! "user") as [u|] eqn:Hu;
    [|by rewrite analyze_log_skipped by (left; by rewrite Hu)].
  destruct (ev !! "action") as [a|] eqn:Ha;
    [|by rewrite analyze_log_skipped by (right; by rewrite Ha)].
  destruct (Py.truthy u) eqn:Tu;
    [|by rewrite analyze_log_skipped by (left; by rewrite Hu)].
  destruct (Py.truthy a) eqn:Ta;
    [|by rewrite analyze_log_skipped by (right; by rewrite Ha)].
  by rewrite (analyze_log_recorded _ _ _ _ Hu Ha Tu Ta).
Qed.

Lemma accepted_passes user ev :
  accepted user ev
  = match passes ev with
    | Some (u, a) => if bool_decide (u = user) then Some a else None
    | None => None
    end.
Proof.
  unfold accepted, passes.
  destruct (ev !! "user") as [u|]; [|done].
  destruct (ev !! "action") as [a|]; [|done].
  by destruct (Py.truthy u), (Py.truthy a).
Qed.

Lemma analyze_log_history ev self user :
  actions_of (analyze_log ev self).2 user
  = actions_of self user ∪ list_to_set (omap (accepted user) [ev]).
Proof.
  cbn [omap list_omap]. rewrite analyze_log_state, accepted_passes.
  destruct (passes ev) as [[u a]|]; [|set_solver].
  unfold actions_of at 1. simpl.
  destruct (decide (u = user)) as [->|Hne].
  - rewrite lookup_insert_eq, bool_decide_eq_true_2 by done. simpl. set_solver.
  - rewrite lookup_insert_ne, bool_decide_eq_false_2 by done.
    fold (actions_of self user). set_solver.
Qed.

(** X5. After any sequence of calls an actor's set is the set it had
    before together with the actions of the events that named the actor
    and passed the guard: nothing else is ever recorded. *)
Theorem history_is_what_was_observed evs self user :
  actions_of (analyze_all evs self) user
  = actions_of self user ∪ list_to_set (omap (accepted user) evs).
Proof.
  revert self. induction evs as [|ev evs IH]; intros self.
  - simpl. set_solver.
  - unfold analyze_all in *. cbn [fold_left]. rewrite IH, analyze_log_history.
    cbn [omap list_omap]. destruct (accepted user ev); simpl; set_solver.
Qed.

Lemma analyze_log_commute ev1 ev2 self :
  (analyze_log ev2 (analyze_log ev1 self).2).2
  = (analyze_log ev1 (analyze_log ev2 self).2).2.
Proof.
  rewrite !analyze_log_state.
  destruct (passes ev1) as [[u1 a1]|], (passes ev2) as [[u2 a2]|]; try done.
  simpl. f_equal. unfold actions_of. simpl.
  destruct (decide (u1 = u2)) as [->|Hne].
  - rewrite !lookup_insert_eq, !insert_insert_eq. simpl. f_equal. set_solver.
  - rewrite !lookup_insert_ne by done. by apply insert_insert_ne.
Qed.

(** X6. The history the engine ends with does not depend on the order in
    which the events arrived. *)
Theorem history_order_irrelevant evs1 evs2 self :
  evs1 ≡ₚ evs2 → analyze_all evs1 self = analyze_all evs2 self.
Proof.
  intros Hperm. revert self.
  induction Hperm as [|ev l1 l2 _ IH|ev1 ev2 l|l1 l2 l3 _ IH1 _ IH2]; intros self.
  - done.
  - unfold analyze_all in *. cbn [fold_left]. apply IH.
  - unfold analyze_all. cbn [fold_left]. by rewrite analyze_log_commute.
  - by rewrite IH1.
Qed.

(** X7. Repeating a call changes nothing: the second call returns the
    violations of the first and leaves the state the first produced. *)
Theorem analyze_log_idempotent ev self :
  analyze_log ev (analyze_log ev self).2 = analyze_log ev self.
Proof.
  destruct (analyze_log_cases ev self) as [E|(u & a & Hu & Ha & Tu & Ta)].
  - by rewrite E.
  - rewrite !(analyze_log_recorded _ _ _ _ Hu Ha Tu Ta). simpl.
    unfold actions_of at 1 3. simpl. rewrite lookup_insert_eq. simpl.
    rewrite insert_insert_eq.
    assert (Hset : actions_of self u ∪ {[a]} ∪ {[a]} = actions_of self u ∪ {[a]})
      by set_solver.
    by rewrite Hset.
Qed.

(** X8. The actors the engine knows after any sequence of calls are those
    it knew before and those named by an event that passed the guard; the
    rules are those loaded at construction. *)
Theorem known_actors (evs : list (gmap string string)) self :
  dom (user_state (analyze_all evs self))
  = dom (user_state self) ∪ list_to_set (omap (λ ev, fst <$> passes ev) evs)
  ∧ rules (analyze_all evs self) = rules self.
Proof.
  split; [|apply analyze_all_rules].
  revert self. induction evs as [|ev evs IH]; intros self.
  - simpl. set_solver.
  - unfold analyze_all in *. cbn [fold_left]. rewrite IH, analyze_log_state.
    cbn [omap list_omap]. destruct (passes ev) as [[u a]|]; simpl.
    + rewrite dom_insert_L. set_solver.
    + set_solver.
Qed.

End RuleEngineMore.

(** ** What a run writes *)

Section Written.

Implicit Types (env : Env) (w : World) (raw : string) (sd : gmap string string).

Lemma violation_artifacts_sound raw sd integrity_status
    (violations : list string) arts :
  Forall (λ v, Py.truthy v = true) violations →
  Forall2 (violation_artifact raw sd integrity_status) violations arts →
  Forall (λ a, Reporter.Status a = "VIOLATION"
               ∧ is_Some (Reporter.ViolationReason a)
               ∧ Reporter.NIST_Control a = "AC-5 (Separation of Duties)"
               ∧ Reporter.Raw (Reporter.Source a) = raw
               ∧ Reporter.Details a = sd) arts.
Proof.
  intros Htruthy Harts.
  induction Harts as [|v a vs arts (uuid & now & ->) _ IH]; [constructor|].
  apply Forall_cons in Htruthy as [Tv Tvs]. constructor; [|by apply IH].
  unfold Reporter.generate_evidence_artifact. simpl. rewrite Tv. by repeat split.
Qed.

(** X9. Every artifact a run writes has status VIOLATION, a violation
    reason, the fixed control label and the raw log it is about: a log
    line without finding leaves no artifact, a tampered one leaves one,
    and otherwise there is one per reported violation. *)
Theorem artifacts_written env raw expected w :
  let out := run_pipeline env raw expected w in
  let violations :=
    (RuleEngine.analyze_log (fallback raw (ollama env (ticks w) raw)) (engine w)).1 in
  ∃ arts,
    artifacts out.2 = (artifacts w ++ arts)%list
    ∧ length arts = (if out.1 then length violations else 1%nat)
    ∧ Forall (λ a, Reporter.Status a = "VIOLATION"
                   ∧ is_Some (Reporter.ViolationReason a)
                   ∧ Reporter.NIST_Control a = "AC-5 (Separation of Duties)"
                   ∧ Reporter.Raw (Reporter.Source a) = raw) arts.
Proof.
  intros out violations. unfold out. rewrite run_pipeline_branches.
  destruct (integrity_fails raw expected).
  - rewrite tampering_outcome. simpl. eexists [_]. split; [done|]. split; [done|].
    repeat constructor. by eexists.
  - destruct (process_outcome env raw (Hasher.generate_sha256 raw) true w)
      as (arts & rows & n & -> & Hcases).
    simpl. exists arts. split; [done|].
    destruct Hcases as [(Hnone & -> & _) | (_ & Harts & _)].
    + unfold violations. rewrite Hnone. split; [done|]. constructor.
    + split; [symmetry; by eapply Forall2_length|].
      eapply Forall_impl.
      * eapply violation_artifacts_sound; [|exact Harts]. apply violations_truthy.
      * intros a (? & ? & ? & ? & _). done.
Qed.

(** X10. Every finding row a run writes carries the control id [AC-5],
    whatever id the configured rule has, and the actor and action of the
    event, [unknown] standing for a missing one; a tampered line writes
    no row. *)
Theorem rows_written env raw expected w :
  let out := run_pipeline env raw expected w in
  let sd := fallback raw (ollama env (ticks w) raw) in
  ∃ rows,
    AuditItems out.2 = (AuditItems w ++ rows)%list
    ∧ (out.1 = false → rows = [])
    ∧ Forall (λ r, Database.NIST_Control r = "AC-5"
                   ∧ Database.UserID r = default "unknown" (sd !! "user")
                   ∧ Database.Action r = default "unknown" (sd !! "action")) rows.
Proof.
  intros out sd. unfold out. rewrite run_pipeline_branches.
  destruct (integrity_fails raw expected).
  - rewrite tampering_outcome. simpl. exists []. rewrite app_nil_r.
    split; [done|]. split; [done|]. constructor.
  - destruct (process_outcome env raw (Hasher.generate_sha256 raw) true w)
      as (arts & rows & n & -> & Hcases).
    simpl. exists rows. split; [done|]. split; [done|].
    destruct Hcases as [(_ & _ & r & -> & Hr) | (_ & _ & Hrows)].
    + destruct Hr as (_ & ? & ? & _ & ? & _). by repeat constructor.
    + clear -Hrows. induction Hrows as [|a r arts rows Hr _ IH]; [constructor|].
      constructor; [|done]. destruct Hr as (_ & ? & ? & _ & ? & _). done.
Qed.

End Written.

(** ** The two tables stay consistent *)

Section Tables.

Implicit Types (env : Env) (w : World) (raw : string) (sd : gmap string string).


(** Lines with their optional baselines through the pipeline in turn. *)
Definition run_lines env (lines : list (string * option string)) w : World :=
  fold_left (λ w line, (run_pipeline env line.1 line.2 w).2) lines w.

Lemma for_each_cons {A} (x : A) (xs : list A) (body : A → M unit) w :
  for_each (x :: xs) body w = for_each xs body (body x w).2.
Proof.
  cbn [for_each]. unfold mbind, M_bind. by destruct (body x w) as [[] w1].
Qed.





End Tables.

(** ** The fallback when it fails, and when it succeeds *)

Section FallbackMore.

Implicit Types (env : Env) (w : World) (raw : string).

(** A text without the separator is a single field. *)
Lemma split_from_absent sep s cur :
  Py.contains sep s = false → Py.split_from sep s 0 cur = [cur +:+ s].
Proof.
  revert cur. induction s as [|c s IH]; intros cur Habsent.
  - by rewrite app_empty_r.
  - rewrite contains_unfold in Habsent.
    apply orb_false_elim in Habsent as [Hhere Hlater].
    cbn [Py.split_from]. rewrite Hhere, IH by done.
    by rewrite app_assoc_s, app_cons, app_empty_l.
Qed.

Lemma split_absent sep s : Py.contains sep s = false → Py.split sep s = [s].
Proof.
  intros Habsent. unfold Py.split. by rewrite split_from_absent, app_empty_l.
Qed.

(** X12. When the parser's answer has no action and the raw log holds
    [executed action:] but no ["User "], the fallback ends in the
    [IndexError] branch and the event becomes empty: whatever else the
    parser had found is dropped, the engine is not touched, and the one
    Clear row reads [unknown] for actor and action. *)
Theorem failed_fallback_drops_answer env raw w :
  let answer := ollama env (ticks w) raw in
  answer !! "action" = None →
  Py.contains "executed action:" raw = true →
  Py.contains "User " raw = false →
  let out := run_pipeline env raw None w in
  fallback raw answer = ∅
  ∧ out.1 = true
  ∧ engine out.2 = engine w
  ∧ ∃ r, AuditItems out.2 = (AuditItems w ++ [r])%list
       ∧ Database.UserID r = "unknown" ∧ Database.Action r = "unknown"
       ∧ Database.Verdict r = "Clear".
Proof.
  intros answer Hnone Hmarker Hnouser out.
  assert (Hsd : fallback raw answer = ∅).
  { unfold fallback.
    rewrite (bool_decide_eq_true_2 (answer !! "action" = None)) by done.
    rewrite orb_true_r, Hmarker. unfold fallback_parse.
    by rewrite (split_absent "User " raw). }
  split; [done|]. unfold out. rewrite run_pipeline_branches. simpl.
  destruct (process_outcome env raw (Hasher.generate_sha256 raw) true w)
    as (arts & rows & n & -> & Hcases).
  fold answer in Hcases. rewrite Hsd in Hcases. simpl in Hcases |- *.
  fold answer. rewrite Hsd. simpl. split; [done|]. split; [done|].
  destruct Hcases as [(_ & _ & r & -> & Hr) | (Hsome & _)]; [|done].
  exists r. destruct Hr as (_ & ? & ? & ? & _). done.
Qed.

(** The shape the fallback reads an actor and an action from. *)
Definition fallback_shape (pre actor action rest : string) : Prop :=
  Py.contains "U" pre = false ∧ Py.contains "U" actor = false
  ∧ Py.contains "U" action = false ∧ Py.contains "U" rest = false
  ∧ Py.contains " " actor = false ∧ Py.contains " " action = false
  ∧ (rest = "" ∨ ∃ rest', rest = " " +:+ rest').

Lemma fallback_on_shape (answer : gmap string string) pre actor action rest :
  answer !! "action" = None →
  fallback_shape pre actor action rest →
  fallback (pre +:+ "User " +:+ actor +:+ " executed action: " +:+ action +:+ rest)
           answer
  = RuleEngine.event actor action.
Proof.
  intros Hnone (? & ? & ? & ? & ? & ? & ?). unfold fallback.
  rewrite (bool_decide_eq_true_2 (answer !! "action" = None)) by done.
  rewrite orb_true_r, contains_marker. by apply fallback_parse_pattern.
Qed.

Lemma process_engine env raw h i w :
  engine (process env raw h i w).2
  = (RuleEngine.analyze_log (fallback raw (ollama env (ticks w) raw)) (engine w)).2.
Proof. by destruct (process_outcome env raw h i w) as (? & ? & ? & -> & _). Qed.

(** A line of the fallback shape is recorded under its actor. *)
Lemma shaped_line_engine env w pre actor action rest :
  (∀ n raw, ollama env n raw !! "action" = None) →
  fallback_shape pre actor action rest →
  engine (run_pipeline env
            (pre +:+ "User " +:+ actor +:+ " executed action: " +:+ action +:+ rest)
            None w).2
  = (RuleEngine.analyze_log (RuleEngine.event actor action) (engine w)).2.
Proof.
  intros Hans Hshape. rewrite run_pipeline_branches. simpl.
  rewrite process_engine. by rewrite fallback_on_shape.
Qed.

(** A line whose event completes a configured pair gets a Violation row. *)
Lemma violation_row_written env raw w r pairs a b actor :
  RuleEngine.rules (engine w) !! "nist_ac2_sod" = Some r →
  RuleEngine.conflict_actions r = Some pairs →
  (a, b) ∈ pairs →
  fallback raw (ollama env (ticks w) raw) = RuleEngine.event actor b →
  Py.truthy actor = true → Py.truthy b = true →
  a ∈ RuleEngine.actions_of (engine w) actor →
  let out := run_pipeline env raw None w in
  out.1 = true
  ∧ ∃ row art,
      row ∈ AuditItems out.2 ∧ art ∈ artifacts out.2
      ∧ Database.item_LogID row = S (length (IntegrityBaseline w))
      ∧ Database.UserID row = actor ∧ Database.Action row = b
      ∧ Database.Verdict row = "Violation"
      ∧ Database.EvidenceArtifact row = Some art
      ∧ Reporter.ViolationReason art
        = Some (RuleEngine.violation_msg (RuleEngine.id r) actor a b).
Proof.
  intros Hr Hpairs Hab Hsd Tactor Tb Ha out.
  pose (msg := RuleEngine.violation_msg (RuleEngine.id r) actor a b).
  assert (Hmsg : msg ∈ (RuleEngine.analyze_log (RuleEngine.event actor b) (engine w)).1).
  { rewrite (analyze_log_recorded _ _ actor b
               (lookup_event_user _ _) (lookup_event_action _ _) Tactor Tb).
    simpl. unfold violations_for. rewrite Hr, Hpairs. simpl.
    rewrite check_pairs_filter. simpl.
    apply (list_elem_of_fmap_2
             (λ p, RuleEngine.violation_msg (RuleEngine.id r) actor p.1 p.2) _ (a, b)).
    apply list_elem_of_filter. split; [|done]. simpl. set_solver. }
  unfold out. rewrite run_pipeline_branches. simpl.
  destruct (process_outcome env raw (Hasher.generate_sha256 raw) true w)
    as (arts & rows & n & -> & Hcases).
  rewrite Hsd in Hcases. simpl. split; [done|].
  destruct Hcases as [(Hnone & _) | (_ & Harts & Hrows)].
  { rewrite Hnone in Hmsg. by apply not_elem_of_nil in Hmsg. }
  apply list_elem_of_lookup in Hmsg as [i Hi].
  destruct (Forall2_lookup_l _ _ _ _ _ Harts Hi) as (art & Hart & uuid & now & Hgen).
  destruct (Forall2_lookup_l _ _ _ _ _ Hrows Hart) as (row & Hrow & Hfields).
  destruct Hfields as (Hid & Hu & Hact & Hverdict & _ & Hev).
  exists row, art. split; [apply elem_of_app; right; by eapply list_elem_of_lookup_2|].
  split; [apply elem_of_app; right; by eapply list_elem_of_lookup_2|].
  rewrite Hu, Hact, lookup_event_user, lookup_event_action. simpl.
  repeat split; try done. by rewrite Hgen.
Qed.

(** X13. With a parser that finds no action, two log lines
    [<pre>User <actor> executed action: <action><rest>] for one
    non-empty actor, each of the shape the fallback reads
    ([fallback_shape]: no capital U in [pre], [actor], [action] and
    [rest], no space in [actor] and [action], [rest] empty or opening
    with a space), carrying the two non-empty actions of a conflict pair
    of the rule [nist_ac2_sod], end with a Violation row for the second
    line: its actor and action are those read by the fallback and its
    evidence names the pair. *)
Theorem sod_through_fallback env w r pairs a b actor pre1 rest1 pre2 rest2 :
  (∀ n raw, ollama env n raw !! "action" = None) →
  RuleEngine.rules (engine w) !! "nist_ac2_sod" = Some r →
  RuleEngine.conflict_actions r = Some pairs →
  (a, b) ∈ pairs →
  Py.truthy actor = true → Py.truthy a = true → Py.truthy b = true →
  fallback_shape pre1 actor a rest1 → fallback_shape pre2 actor b rest2 →
  let raw1 := pre1 +:+ "User " +:+ actor +:+ " executed action: " +:+ a +:+ rest1 in
  let raw2 := pre2 +:+ "User " +:+ actor +:+ " executed action: " +:+ b +:+ rest2 in
  let w1 := (run_pipeline env raw1 None w).2 in
  let out := run_pipeline env raw2 None w1 in
  out.1 = true
  ∧ ∃ row art,
      row ∈ AuditItems out.2 ∧ art ∈ artifacts out.2
      ∧ Database.item_LogID row = S (length (IntegrityBaseline w1))
      ∧ Database.UserID row = actor ∧ Database.Action row = b
      ∧ Database.Verdict row = "Violation"
      ∧ Database.EvidenceArtifact row = Some art
      ∧ Reporter.ViolationReason art
        = Some (RuleEngine.violation_msg (RuleEngine.id r) actor a b).
Proof.
  intros Hans Hr Hpairs Hab Tactor Ta Tb Hshape1 Hshape2 raw1 raw2 w1 out.
  assert (Hengine : engine w1
            = (RuleEngine.analyze_log (RuleEngine.event actor a) (engine w)).2)
    by (by apply shaped_line_engine).
  apply (violation_row_written env raw2 w1 r pairs a b actor); try done.
  - by rewrite Hengine, analyze_log_rules.
  - unfold raw2. by apply fallback_on_shape.
  - rewrite Hengine.
    rewrite (analyze_log_recorded _ _ actor a
               (lookup_event_user _ _) (lookup_event_action _ _) Tactor Ta).
    unfold RuleEngine.actions_of at 1. simpl. rewrite lookup_insert_eq. simpl.
    set_solver.
Qed.

End FallbackMore.

(** ** utils/mock_generator.py *)

Module PyText.

(** [s.replace(old, new)] for a non-empty [old]: every leftmost
    non-overlapping occurrence of [old] gives way to [new].  [skip] counts
    the characters of a matched occurrence still to be passed over. *)
Fixpoint replace_from (old new s : string) (skip : nat) : string :=
  match s with
  | EmptyString => EmptyString
  | String c s' =>
      match skip with
      | S k => replace_from old new s' k
      | O =>
          if Py.startswith old s
          then new +:+ replace_from old new s' (String.length old - 1)
          else String c (replace_from old new s' 0)
      end
  end.

Definition replace (old new s : string) : string := replace_from old new s 0.

(** [random.choice(seq)]: the element at the drawn index. *)
Definition choice (seq : list string) (draw : nat) : string :=
  nth (draw mod length seq) seq EmptyString.

(** [random.randint(a, b)]: a number from [a] to [b], both included. *)
Definition randint (a b draw : N) : N := (a + draw mod (b - a + 1))%N.

End PyText.

Module MockGenerator.

Definition USERS : list string :=
  ["root"; "admin"; "process_owner"; "u_finance_01"; "u_audit_01"].

Definition ACTIONS : list string :=
  ["password check"; "authentication failure"; "accepted password"].

(** What the clock and the random module hand to one call of
    [generate_normal_log]: the formatted time and three draws. *)
Record Draws := mkDraws {
  timestamp : string;
  user_draw : nat;
  pid_draw : N;
  msg_draw : nat
}.

(** [generate_normal_log] *)
Definition generate_normal_log (d : Draws) : string :=
  let user := PyText.choice USERS (user_draw d) in
  let pid := PyText.randint 1000 20000 (pid_draw d) in
  let msg := PyText.choice ACTIONS (msg_draw d) in
  timestamp d +:+ " combo sshd(pam_unix)[" +:+ pretty pid +:+ "]: " +:+ msg
  +:+ "; user=" +:+ user.

(** [generate_sod_violation_sequence]; [t1_str] and [t2_str] are the two
    formatted times, 45 seconds apart (the drawn [pid] is not used). *)
Definition generate_sod_violation_sequence (t1_str t2_str : string) : list string :=
  let user := "u_finance_01" in
  let log1 := t1_str +:+ " finance_app system[1]: User " +:+ user
              +:+ " executed action: Create_Invoice ID=INV-2024-001" in
  let log2 := t2_str +:+ " finance_app system[1]: User " +:+ user
              +:+ " executed action: Approve_Payment ID=INV-2024-001" in
  [log1; log2].


End MockGenerator.

Example generate_normal_log_example :
  MockGenerator.generate_normal_log (MockGenerator.mkDraws "Jun 14 15:16:01" 0 18939%N 1)
  = "Jun 14 15:16:01 combo sshd(pam_unix)[19939]: authentication failure; user=root".
Proof. vm_compute. reflexivity. Qed.

Example replace_examples :
  PyText.replace "aa" "b" "xaaaay" = "xbby"
  /\ PyText.replace "authentication failure" "accepted password"
       "sshd: authentication failure; user=root" = "sshd: accepted password; user=root".
Proof. vm_compute. split; reflexivity. Qed.

Section MockGeneratorFacts.

Import PyText MockGenerator.








(** X15. The two lines of [generate_sod_violation_sequence], run in turn
    on an engine whose rule lists (Create_Invoice, Approve_Payment) while
    the parser finds no action, leave a Violation row for [u_finance_01]
    and [Approve_Payment], whatever the two formatted times are as long
    as they hold no capital U. *)
Theorem generated_sod_sequence_detected env w r pairs t1_str t2_str :
  (∀ n raw, ollama env n raw !! "action" = None) →
  RuleEngine.rules (engine w) !! "nist_ac2_sod" = Some r →
  RuleEngine.conflict_actions r = Some pairs →
  ("Create_Invoice", "Approve_Payment") ∈ pairs →
  Py.contains "U" t1_str = false → Py.contains "U" t2_str = false →
  let w2 := Scenario.run_all env (generate_sod_violation_sequence t1_str t2_str) w in
  ∃ row art,
    row ∈ AuditItems w2
    ∧ Database.UserID row = "u_finance_01"
    ∧ Database.Action row = "Approve_Payment"
    ∧ Database.Verdict row = "Violation"
    ∧ Database.EvidenceArtifact row = Some art
    ∧ Reporter.ViolationReason art
      = Some (RuleEngine.violation_msg (RuleEngine.id r) "u_finance_01"
                "Create_Invoice" "Approve_Payment").
Proof.
  intros Hans Hr Hpairs Hin Ht1 Ht2 w2.
  assert (Hshape : ∀ t action, Py.contains "U" t = false →
            Py.contains "U" action = false → Py.contains " " action = false →
            fallback_shape (t +:+ " finance_app system[1]: ") "u_finance_01" action
              " ID=INV-2024-001").
  { intros t action Ht HU Hsp. repeat split; try done.
    - by rewrite contains_char_app, Ht.
    - right. by eexists. }
  assert (Hline : ∀ t action,
            t +:+ " finance_app system[1]: User " +:+ "u_finance_01"
              +:+ " executed action: " +:+ action +:+ " ID=INV-2024-001"
            = (t +:+ " finance_app system[1]: ") +:+ "User " +:+ "u_finance_01"
              +:+ " executed action: " +:+ action +:+ " ID=INV-2024-001")
    by (intros; by rewrite app_assoc_s).
  unfold w2, Scenario.run_all, generate_sod_violation_sequence. cbn [fold_left].
  change (" executed action: Create_Invoice ID=INV-2024-001")
    with (" executed action: " +:+ "Create_Invoice" +:+ " ID=INV-2024-001").
  change (" executed action: Approve_Payment ID=INV-2024-001")
    with (" executed action: " +:+ "Approve_Payment" +:+ " ID=INV-2024-001").
  rewrite !Hline.
  match goal with
  | |- context [run_pipeline env ?raw2 None (run_pipeline env ?raw1 None w).2] =>
      set (w1 := (run_pipeline env raw1 None w).2);
      assert (Hengine : engine w1
                = (RuleEngine.analyze_log
                     (RuleEngine.event "u_finance_01" "Create_Invoice") (engine w)).2)
        by (apply shaped_line_engine; [done|by apply Hshape]);
      destruct (violation_row_written env raw2 w1 r pairs
                  "Create_Invoice" "Approve_Payment" "u_finance_01")
        as (_ & row & art & Hrow & _ & _ & Hu & Ha & Hv & He & Hreason)
  end.
  - by rewrite Hengine, analyze_log_rules.
  - done.
  - done.
  - apply fallback_on_shape; [done|by apply Hshape].
  - done.
  - done.
  - rewrite Hengine.
    rewrite (analyze_log_recorded _ _ "u_finance_01" "Create_Invoice"
               (lookup_event_user _ _) (lookup_event_action _ _) eq_refl eq_refl).
    unfold RuleEngine.actions_of at 1. simpl. rewrite lookup_insert_eq. simpl.
    set_solver.
  - by exists row, art.
Qed.

End MockGeneratorFacts.

(** ** The further properties on concrete runs *)

Section MoreWitnesses.

Import RuleEngine Scenario MockGenerator.

(** X4 on u1 approving after having created, under the two-pair rule. *)
Lemma analyze_log_reports_witness :
  let self := analyze_all [event "u1" "Create_Invoice"] (init two_pairs) in
  let known := actions_of self "u1" ∪ {["Approve_Payment"]} in
  let pairs := [("Create_Invoice", "Approve_Payment");
                ("Create_Invoice", "Delete_Invoice")] in
  (analyze_log (event "u1" "Approve_Payment") self).1
  = map (λ p, violation_msg "AC-5" "u1" p.1 p.2)
        (filter (λ p, p.1 ∈ known ∧ p.2 ∈ known) pairs)
  ∧ (length (analyze_log (event "u1" "Approve_Payment") self).1 ≤ length pairs)%nat.
Proof.
  apply (analyze_log_reports (event "u1" "Approve_Payment")
           (analyze_all [event "u1" "Create_Invoice"] (init two_pairs))
           "u1" "Approve_Payment"
           (mkRule "AC-5" (Some [("Create_Invoice", "Approve_Payment");
                                 ("Create_Invoice", "Delete_Invoice")])));
    reflexivity.
Defined.

(** X6 on two events of one actor in both orders. *)
Lemma history_order_irrelevant_witness :
  analyze_all [event "u1" "Create_Invoice"; event "u1" "Approve_Payment"] (init one_pair)
  = analyze_all [event "u1" "Approve_Payment"; event "u1" "Create_Invoice"] (init one_pair).
Proof. apply history_order_irrelevant. apply perm_swap. Defined.


(** X12: the parser found bob, the log has the marker and no ["User "]. *)
Lemma failed_fallback_drops_answer_witness :
  let raw := "bob executed action: pay" in
  let w := start one_pair in
  let out := run_pipeline actor_only raw None w in
  fallback raw (ollama actor_only (ticks w) raw) = ∅
  ∧ out.1 = true
  ∧ engine out.2 = engine w
  ∧ ∃ r, AuditItems out.2 = (AuditItems w ++ [r])%list
       ∧ Database.UserID r = "unknown" ∧ Database.Action r = "unknown"
       ∧ Database.Verdict r = "Clear".
Proof.
  apply (failed_fallback_drops_answer actor_only "bob executed action: pay"
           (start one_pair)); reflexivity.
Defined.

(** X13 on the two lines of the demonstration. *)
Lemma sod_through_fallback_witness :
  let w1 := (run_pipeline offline log_create None (start one_pair)).2 in
  let out := run_pipeline offline log_approve None w1 in
  out.1 = true
  ∧ ∃ row art,
      row ∈ AuditItems out.2 ∧ art ∈ artifacts out.2
      ∧ Database.item_LogID row = S (length (IntegrityBaseline w1))
      ∧ Database.UserID row = "u_finance_01"
      ∧ Database.Action row = "Approve_Payment"
      ∧ Database.Verdict row = "Violation"
      ∧ Database.EvidenceArtifact row = Some art
      ∧ Reporter.ViolationReason art
        = Some (violation_msg "AC-5" "u_finance_01" "Create_Invoice" "Approve_Payment").
Proof.
  apply (sod_through_fallback offline (start one_pair)
           (mkRule "AC-5" (Some [("Create_Invoice", "Approve_Payment")]))
           [("Create_Invoice", "Approve_Payment")]
           "Create_Invoice" "Approve_Payment" "u_finance_01"
           "Jun 14 15:16:01 finance_app system[1]: " " ID=INV-2024-001"
           "Jun 14 15:16:46 finance_app system[1]: " " ID=INV-2024-001");
    try reflexivity.
  - apply list_elem_of_here.
  - repeat split; try reflexivity. right. by eexists.
  - repeat split; try reflexivity. right. by eexists.
Defined.


(** X15 on two times 45 seconds apart. *)
Lemma generated_sod_sequence_detected_witness :
  let w2 := run_all offline
              (generate_sod_violation_sequence "Jun 14 15:16:01" "Jun 14 15:16:46")
              (start one_pair) in
  ∃ row art,
    row ∈ AuditItems w2
    ∧ Database.UserID row = "u_finance_01"
    ∧ Database.Action row = "Approve_Payment"
    ∧ Database.Verdict row = "Violation"
    ∧ Database.EvidenceArtifact row = Some art
    ∧ Reporter.ViolationReason art
      = Some (violation_msg "AC-5" "u_finance_01" "Create_Invoice" "Approve_Payment").
Proof.
  apply (generated_sod_sequence_detected offline (start one_pair)
           (mkRule "AC-5" (Some [("Create_Invoice", "Approve_Payment")]))
           [("Create_Invoice", "Approve_Payment")]
           "Jun 14 15:16:01" "Jun 14 15:16:46"); try reflexivity.
  apply list_elem_of_here.
Defined.

End MoreWitnesses.

(** ** Detection follows the observed history *)

Section Detection2.

Import RuleEngine.

(** X16. On an engine built from a configuration, what a call that passes
    the guard reports is fixed by the events seen so far: the configured
    pairs, in their order, whose two actions are both among the actions
    of the accepted events of that actor, the present one included. *)
Theorem reports_follow_history src (evs : list (gmap string string))
    (ev : gmap string string) user action r :
  ev !! "user" = Some user → ev !! "action" = Some action →
  Py.truthy user = true → Py.truthy action = true →
  _load_rules src !! "nist_ac2_sod" = Some r →
  let seen : gset string := list_to_set (omap (accepted user) (evs ++ [ev])%list) in
  (analyze_log ev (analyze_all evs (init src))).1
  = map (λ p, violation_msg (id r) user p.1 p.2)
        (filter (λ p, p.1 ∈ seen ∧ p.2 ∈ seen) (default [] (conflict_actions r))).
Proof.
  intros Hu Ha Tu Ta Hr seen.
  assert (Hhist : ∀ l self, actions_of (analyze_all l self) user
                    = actions_of self user ∪ list_to_set (omap (accepted user) l)).
  { induction l as [|e l IH]; intros self; [simpl; set_solver|].
    unfold analyze_all in *. cbn [fold_left]. rewrite IH, analyze_log_history.
    cbn [omap list_omap]. destruct (accepted user e); simpl; set_solver. }
  rewrite (analyze_log_recorded _ _ _ _ Hu Ha Tu Ta). simpl.
  unfold violations_for. rewrite analyze_all_rules. simpl. rewrite Hr.
  rewrite check_pairs_filter. simpl.
  assert (Hseen : actions_of (analyze_all evs (init src)) user ∪ {[action]} = seen).
  { assert (Hacc : accepted user ev = Some action).
    { unfold accepted. by rewrite Hu, Ha, Tu, Ta, bool_decide_eq_true_2. }
    rewrite Hhist. unfold seen. rewrite omap_app, list_to_set_app_L.
    cbn [omap list_omap]. rewrite Hacc.
    unfold actions_of, init. simpl. rewrite lookup_empty. simpl. set_solver. }
  by rewrite Hseen.
Qed.

End Detection2.

(** ** Stores only grow, and evidence is on file *)

Section Stores.

Implicit Types (env : Env) (w : World) (raw : string).

Lemma run_pipeline_appends env raw expected w :
  let w' := (run_pipeline env raw expected w).2 in
  IntegrityBaseline w `prefix_of` IntegrityBaseline w'
  ∧ AuditItems w `prefix_of` AuditItems w'
  ∧ artifacts w `prefix_of` artifacts w'
  ∧ posted w `prefix_of` posted w'.
Proof.
  cbv zeta. rewrite run_pipeline_branches.
  destruct (integrity_fails raw expected).
  - rewrite tampering_outcome. simpl. repeat split; try done. by apply prefix_app_r.
  - destruct (process_outcome env raw (Hasher.generate_sha256 raw) true w)
      as (arts & rows & n & -> & _).
    simpl. repeat split; by apply prefix_app_r.
Qed.

(** X17. The stores are append-only: through any sequence of runs each
    table, the artifact store and the list of parser requests keep what
    they held, in place, and only gain entries at the end. *)
Theorem stores_append_only env lines w :
  let w' := run_lines env lines w in
  IntegrityBaseline w `prefix_of` IntegrityBaseline w'
  ∧ AuditItems w `prefix_of` AuditItems w'
  ∧ artifacts w `prefix_of` artifacts w'
  ∧ posted w `prefix_of` posted w'.
Proof.
  cbv zeta. revert w. induction lines as [|[raw expected] lines IH]; intros w.
  - by repeat split.
  - unfold run_lines in *. cbn [fold_left].
    destruct (IH (run_pipeline env raw expected w).2) as (H1 & H2 & H3 & H4).
    destruct (run_pipeline_appends env raw expected w) as (G1 & G2 & G3 & G4).
    cbn [fst snd] in *. repeat split; etrans; eauto.
Qed.

(** The evidence of every finding row has been saved as an artifact. *)
Definition evidence_saved w : Prop :=
  Forall (λ r, ∀ a, Database.EvidenceArtifact r = Some a → a ∈ artifacts w)
         (AuditItems w).

Lemma run_pipeline_evidence env raw expected w :
  evidence_saved w → evidence_saved (run_pipeline env raw expected w).2.
Proof.
  unfold evidence_saved. intros Hsaved. rewrite run_pipeline_branches.
  destruct (integrity_fails raw expected).
  - rewrite tampering_outcome. simpl.
    eapply Forall_impl; [exact Hsaved|]. intros r Hr a Ha.
    apply elem_of_app. left. by apply Hr.
  - destruct (process_outcome env raw (Hasher.generate_sha256 raw) true w)
      as (arts & rows & n & -> & Hcases).
    simpl. apply Forall_app. split.
    + eapply Forall_impl; [exact Hsaved|]. intros r Hr a Ha.
      apply elem_of_app. left. by apply Hr.
    + destruct Hcases as [(_ & _ & r & -> & Hr) | (_ & _ & Hrows)].
      * constructor; [|constructor]. intros a Ha.
        destruct Hr as (_ & _ & _ & _ & _ & Hev). congruence.
      * apply Forall_forall. intros r Hr a Ha.
        apply list_elem_of_lookup in Hr as [i Hi].
        destruct (Forall2_lookup_r _ _ _ _ _ Hrows Hi) as (a' & Ha' & Hfields).
        destruct Hfields as (_ & _ & _ & _ & _ & Hev).
        assert (a' = a) as -> by congruence.
        apply elem_of_app. right. by eapply list_elem_of_lookup_2.
Qed.

(** X18. Whenever a finding row carries an evidence payload, that very
    artifact has been handed to [save_artifact]; this holds after any
    sequence of runs once it holds before. *)
Theorem evidence_is_saved env lines w :
  evidence_saved w → evidence_saved (run_lines env lines w).
Proof.
  revert w. induction lines as [|[raw expected] lines IH]; intros w Hw; [done|].
  unfold run_lines in *. cbn [fold_left]. apply IH.
  by apply run_pipeline_evidence.
Qed.


End Stores.

Section StoresWitnesses.

Import Scenario.


(** X16 on u1 creating, u2 logging in, then u1 approving. *)
Lemma reports_follow_history_witness :
  let evs := [RuleEngine.event "u1" "Create_Invoice"; RuleEngine.event "u2" "Login"] in
  let ev := RuleEngine.event "u1" "Approve_Payment" in
  let seen : gset string := list_to_set (omap (accepted "u1") (evs ++ [ev])%list) in
  (RuleEngine.analyze_log ev (RuleEngine.analyze_all evs (RuleEngine.init two_pairs))).1
  = map (λ p, RuleEngine.violation_msg "AC-5" "u1" p.1 p.2)
        (filter (λ p, p.1 ∈ seen ∧ p.2 ∈ seen)
           [("Create_Invoice", "Approve_Payment"); ("Create_Invoice", "Delete_Invoice")]).
Proof.
  apply (reports_follow_history two_pairs
           [RuleEngine.event "u1" "Create_Invoice"; RuleEngine.event "u2" "Login"]
           (RuleEngine.event "u1" "Approve_Payment") "u1" "Approve_Payment"
           (RuleEngine.mkRule "AC-5"
              (Some [("Create_Invoice", "Approve_Payment");
                     ("Create_Invoice", "Delete_Invoice")])));
    reflexivity.
Defined.

(** X18 from empty stores. *)
Lemma evidence_is_saved_witness :
  evidence_saved
    (run_lines offline [(log_create, None); (log_approve, None)] (start one_pair)).
Proof. apply evidence_is_saved. constructor. Defined.


End StoresWitnesses.

(** ** The second way the fallback fails *)

Section FallbackSegment.

Lemma length_app_s (s1 s2 : string) :
  String.length (s1 +:+ s2) = (String.length s1 + String.length s2)%nat.
Proof. induction s1 as [|c s1 IH]; [done|]. rewrite app_cons. simpl. by rewrite IH. Qed.

(** Whether a text opens with [p] is decided by its first [length p]
    characters. *)
Lemma startswith_app_long (p x y : string) :
  (String.length p ≤ String.length x)%nat →
  Py.startswith p (x +:+ y) = Py.startswith p x.
Proof.
  revert x. induction p as [|a p IH]; intros x Hlen; [done|].
  destruct x as [|b x]; [simpl in Hlen; lia|].
  rewrite app_cons. simpl. destruct (Ascii.eqb a b); [|done].
  apply IH. simpl in Hlen. lia.
Qed.

(** The first field ends where the separator first occurs: no
    occurrence begins before, that is none lies in the text up to the
    separator's last character. *)
Lemma split_from_first (si : string) (l : ascii) (p s cur : string) :
  let sep := si +:+ String l "" in
  Py.contains sep (p +:+ si) = false →
  Py.split_from sep (p +:+ sep +:+ s) 0 cur
  = (cur +:+ p) :: Py.split_from sep s 0 "".
Proof.
  intros sep. revert cur. induction p as [|c p IH]; intros cur Hfirst.
  - rewrite app_empty_l, app_empty_r. unfold sep.
    destruct si as [|c si]; rewrite ?app_cons, ?app_empty_l; apply split_from_sep.
  - rewrite app_cons in Hfirst. rewrite contains_unfold in Hfirst.
    apply orb_false_elim in Hfirst as [Hhere Hlater].
    rewrite app_cons. cbn [Py.split_from].
    assert (Hopen : Py.startswith sep (String c (p +:+ sep +:+ s)) = false).
    { rewrite <- Hhere.
      replace (String c (p +:+ sep +:+ s)) with (String c (p +:+ si) +:+ String l s).
      - apply startswith_app_long. unfold sep. simpl. rewrite !length_app_s. simpl. lia.
      - unfold sep. rewrite app_cons, !app_assoc_s. by rewrite app_cons, app_empty_l. }
    rewrite Hopen, IH by done.
    by rewrite app_assoc_s, app_cons, app_empty_l.
Qed.

Lemma split_first (si : string) (l : ascii) (p s : string) :
  Py.contains (si +:+ String l "") (p +:+ si) = false →
  Py.split (si +:+ String l "") (p +:+ (si +:+ String l "") +:+ s)
  = p :: Py.split (si +:+ String l "") s.
Proof.
  intros Hfirst. unfold Py.split. by rewrite split_from_first, app_empty_l.
Qed.

Lemma startswith_short (p s : string) :
  (String.length s < String.length p)%nat → Py.startswith p s = false.
Proof.
  revert s. induction p as [|a p IH]; intros s Hlen; [simpl in Hlen; lia|].
  destruct s as [|b s]; [done|]. simpl.
  destruct (Ascii.eqb a b); [|done]. apply IH. simpl in Hlen. lia.
Qed.

Lemma contains_short (x s : string) :
  (String.length s < String.length x)%nat → Py.contains x s = false.
Proof.
  induction s as [|c s IH]; intros Hlen; rewrite contains_unfold.
  - by rewrite startswith_short.
  - rewrite startswith_short by done. apply IH. simpl in Hlen. lia.
Qed.

Lemma startswith_split (p s : string) :
  Py.startswith p s = true → ∃ t, s = p +:+ t.
Proof.
  revert s. induction p as [|a p IH]; intros s Hopen; [by exists s|].
  destruct s as [|b s]; [done|]. simpl in Hopen.
  destruct (Ascii.eqb a b) eqn:Hab; [|done].
  apply Ascii.eqb_eq in Hab as ->. destruct (IH s Hopen) as [t ->]. by exists t.
Qed.

(** A text that holds the separator splits at its first occurrence. *)
Lemma first_occurrence (si : string) (l : ascii) (s : string) :
  let sep := si +:+ String l "" in
  Py.contains sep s = true →
  ∃ p t, s = p +:+ sep +:+ t ∧ Py.contains sep (p +:+ si) = false.
Proof.
  intros sep. induction s as [|c s IH]; intros Hin; rewrite contains_unfold in Hin.
  - rewrite orb_false_r in Hin. apply startswith_split in Hin as [t Ht].
    exists "", t. rewrite !app_empty_l. split; [done|].
    apply contains_short. unfold sep. rewrite length_app_s. simpl. lia.
  - destruct (Py.startswith sep (String c s)) eqn:Hopen.
    + apply startswith_split in Hopen as [t Ht].
      exists "", t. rewrite !app_empty_l. split; [done|].
      apply contains_short. unfold sep. rewrite length_app_s. simpl. lia.
    + simpl in Hin. destruct (IH Hin) as (p & t & -> & Hfirst).
      exists (String c p), t. split; [by rewrite app_cons|].
      rewrite app_cons, contains_unfold, Hfirst, orb_false_r.
      rewrite <- Hopen. symmetry.
      replace (String c (p +:+ sep +:+ t)) with (String c (p +:+ si) +:+ String l t).
      * apply startswith_app_long. unfold sep. simpl. rewrite !length_app_s. simpl. lia.
      * unfold sep. rewrite app_cons, !app_assoc_s. by rewrite app_cons, app_empty_l.
Qed.

(** Every line that holds ["User "] has the three parts of X20: the
    text before the first ["User "], the text from there to the next one
    or to the end, and what is left. *)
Lemma user_segment_exists (line : string) :
  Py.contains "User " line = true →
  ∃ pre mid tail,
    line = pre +:+ "User " +:+ mid +:+ tail
    ∧ Py.contains "User " (pre +:+ "User") = false
    ∧ ((tail = "" ∧ Py.contains "User " mid = false)
       ∨ (∃ tail', tail = "User " +:+ tail')
         ∧ Py.contains "User " (mid +:+ "User") = false).
Proof.
  intros Hin. destruct (first_occurrence "User" " " line Hin) as (pre & t & -> & Hpre).
  change ("User" +:+ " ") with "User " in *.
  exists pre. destruct (Py.contains "User " t) eqn:Hnext.
  - destruct (first_occurrence "User" " " t Hnext) as (mid & tail' & -> & Hmid).
    change ("User" +:+ " ") with "User " in *.
    exists mid, ("User " +:+ tail'). split; [done|]. split; [done|].
    right. split; [by eexists | done].
  - exists t, "". rewrite app_empty_r. split; [done|]. split; [done|]. by left.
Qed.

(** X20. On a line [pre ++ "User " ++ mid ++ tail] in which this
    ["User "] is the first (none begins in [pre ++ "User"]) and [mid]
    runs to the next one or to the end ([tail] is empty and [mid] holds
    no ["User "], or [tail] opens with ["User "] and none begins in
    [mid ++ "User"]), the fallback reads [mid] only: when [mid] does not
    hold [" executed action: "], spaces included, the [IndexError]
    branch gives the empty event, even if the marker follows later in
    the line. *)
Theorem fallback_parse_segment (pre mid tail : string) :
  Py.contains "User " (pre +:+ "User") = false →
  ((tail = "" ∧ Py.contains "User " mid = false)
   ∨ (∃ tail', tail = "User " +:+ tail') ∧ Py.contains "User " (mid +:+ "User") = false) →
  Py.contains " executed action: " mid = false →
  fallback_parse (pre +:+ "User " +:+ mid +:+ tail) = ∅.
Proof.
  intros Hpre Htail Hmarker. unfold fallback_parse.
  rewrite (split_first "User" " " pre) by done.
  change ("User" +:+ " ") with "User ".
  assert (Hseg : ∃ more, Py.split "User " (mid +:+ tail) = mid :: more).
  { destruct Htail as [[-> Hmid] | [[tail' ->] Hmid]].
    - exists []. by rewrite app_empty_r, split_absent.
    - eexists. apply (split_first "User" " " mid). done. }
  destruct Hseg as [more ->]. cbn [lookup list_lookup].
  by rewrite (split_absent " executed action: " mid).
Qed.

(** X20 on a line that names two users before the marker, the first
    after a word with a capital U. *)
Lemma fallback_parse_segment_witness :
  fallback_parse "UNIX: User alice and User bob executed action: Approve_Payment" = ∅.
Proof.
  apply (fallback_parse_segment "UNIX: " "alice and "
           "User bob executed action: Approve_Payment"); try reflexivity.
  right. split; [by eexists | reflexivity].
Defined.

End FallbackSegment.


(** * The code on values of any type

    The configuration is what [yaml.safe_load] makes of a file and the
    parser's answer is what [json.loads] makes of a reply: neither has to
    have the shape the rest of the code expects.  This part embeds
    [_load_rules], [analyze_log] and [run_pipeline] on such values, with
    the exceptions Python raises on them.  The definitions above are
    their restriction to a configuration of the documented shape and to
    an answer that is a JSON object (lemmas [analyze_log_refines] and
    [run_pipeline_refines]).  Values inside an event stay strings. *)

Module Untyped.

(** The exceptions the modelled code can raise. *)
Inductive exn := AttributeError | TypeError | ValueError | KeyError.

(** A call returns a value or raises. *)
Inductive result (A : Type) :=
| Returned (a : A)
| Raised (e : exn).

Arguments Returned {A} a.
Arguments Raised {A} e.

(** ** The configuration, as [analyze_log] sees its values *)

(** One of the two items of a conflict, for [action_a in self.user_state[user]]. *)
Inductive ActionValue :=
| AStr (s : string)   (* a string *)
| AHashable           (* None, a number, a boolean: hashable and equal to no string *)
| AUnhashable.        (* a sequence or a mapping: hashing it raises TypeError *)

(** An element of the conflict list, for [action_a, action_b = conflict]. *)
Inductive ConflictValue :=
| Pair (action_a action_b : ActionValue)  (* a sequence, string or mapping of two items *)
| WrongLength                             (* one of another length: ValueError *)
| NotIterable.                            (* None, a number, a boolean: TypeError *)

(** The value under [conflict_actions], for [for conflict in conflict_pairs]. *)
Inductive ConflictsValue :=
| NoConflicts                             (* the key is absent: the default [[]] *)
| Conflicts (items : list ConflictValue)  (* the items the loop goes through *)
| ConflictsNotIterable.                   (* None, a number, a boolean: TypeError *)

(** The value under a rule name, for [if sod_rule:] and [sod_rule.get].
    [id] is the text the f-string shows for [sod_rule['id']], when the
    key is there. *)
Inductive RuleValue :=
| RuleFalsy   (* None, False, 0, an empty string, sequence or mapping *)
| RuleNoGet   (* a true scalar, a non-empty string or sequence: it has no [.get] *)
| RuleDict (id : option string) (conflict_actions : ConflictsValue).  (* a non-empty mapping *)

(** The value [config.get("rules", {})] returns, for [self.rules.get]. *)
Inductive RulesValue :=
| RulesDict (rules : gmap string RuleValue)  (* a mapping *)
| RulesNoGet.                                (* None, a scalar or a sequence *)

(** The value [yaml.safe_load] returns, for [config.get]. *)
Inductive ConfigValue :=
| ConfigDict (rules_entry : option RulesValue)  (* a mapping, with or without the key [rules] *)
| ConfigNoGet.                                  (* None (an empty file), a scalar or a sequence *)

(** The configuration file as [_load_rules] meets it. *)
Inductive Source :=
| Unreadable                   (* [open] raises *)
| Malformed                    (* [yaml.safe_load] raises *)
| Loaded (config : ConfigValue).

(** The instance: [self.rules] and [self.user_state]. *)
Record t := mk {
  rules : RulesValue;
  user_state : gmap string (gset string)
}.

(** [_load_rules]: what is raised inside the [try] block gives [{}]; a
    value found under [rules] is returned as it is. *)
Definition _load_rules (src : Source) : RulesValue :=
  match src with
  | Loaded (ConfigDict (Some r)) => r
  | Loaded (ConfigDict None) => RulesDict ∅
  | Loaded ConfigNoGet => RulesDict ∅
  | Unreadable => RulesDict ∅
  | Malformed => RulesDict ∅
  end.

(** [__init__] *)
Definition init (src : Source) : t :=
  {| rules := _load_rules src; user_state := ∅ |}.

(** [action_a in self.user_state[user]] *)
Definition is_in (a : ActionValue) (actions : gset string) : result (option string) :=
  match a with
  | AStr s => Returned (if bool_decide (s ∈ actions) then Some s else None)
  | AHashable => Returned None
  | AUnhashable => Raised TypeError
  end.

(** The body of [for conflict in conflict_pairs]; both membership tests
    are made before the [if], and [sod_rule['id']] is read only when a
    message is built. *)
Fixpoint check_pairs (rule_id : option string) (user : string) (actions : gset string)
    (conflict_pairs : list ConflictValue) (violations : list string)
    : result (list string) :=
  match conflict_pairs with
  | [] => Returned violations
  | NotIterable :: _ => Raised TypeError
  | WrongLength :: _ => Raised ValueError
  | Pair action_a action_b :: rest =>
      match is_in action_a actions with
      | Raised e => Raised e
      | Returned has_a =>
          match is_in action_b actions with
          | Raised e => Raised e
          | Returned has_b =>
              match has_a, has_b with
              | Some a, Some b =>
                  match rule_id with
                  | None => Raised KeyError
                  | Some i =>
                      check_pairs rule_id user actions rest
                        (violations ++ [RuleEngine.violation_msg i user a b])
                  end
              | _, _ => check_pairs rule_id user actions rest violations
              end
          end
      end
  end.

(** [analyze_log]: what the call returns or raises, and the instance
    afterwards; the action is recorded before the rules are read. *)
Definition analyze_log (structured_log : gmap string string) (self : t)
    : result (list string) * t :=
  let violations := [] in
  let user := structured_log !! "user" in
  let action := structured_log !! "action" in
  match user, action with
  | Some u, Some a =>
      if negb (Py.truthy u) || negb (Py.truthy a) then (Returned [], self)
      else
        let self := {| rules := rules self;
                       user_state := RuleEngine.record_action u a (user_state self) |} in
        match rules self with
        | RulesNoGet => (Raised AttributeError, self)
        | RulesDict rs =>
            match rs !! "nist_ac2_sod" with
            | None => (Returned violations, self)
            | Some RuleFalsy => (Returned violations, self)
            | Some RuleNoGet => (Raised AttributeError, self)
            | Some (RuleDict rule_id conflicts) =>
                match conflicts with
                | NoConflicts => (Returned violations, self)
                | ConflictsNotIterable => (Raised TypeError, self)
                | Conflicts conflict_pairs =>
                    (check_pairs rule_id u (default ∅ (user_state self !! u))
                                 conflict_pairs violations, self)
                end
            end
        end
  | _, _ => (Returned [], self)
  end.

(** A sequence of calls on the same instance, whatever each returns or
    raises. *)
Definition analyze_all (events : list (gmap string string)) (self : t) : t :=
  fold_left (λ e ev, snd (analyze_log ev e)) events self.

(** ** The parser's answer, as [run_pipeline] sees it *)

(** What [json.loads] can return.  Of a number the code only asks
    whether it is zero; the values of an object are strings. *)
#[warnings="-register-all"]
Inductive Answer :=
| JObject (fields : gmap string string)
| JNull
| JBool (b : bool)
| JNumber (nonzero : bool)
| JString (s : string)
| JArray (items : list Answer).

(** Truth value: [not structured_data]. *)
Definition truthy (a : Answer) : bool :=
  match a with
  | JObject fields => negb (bool_decide (fields = ∅))
  | JNull => false
  | JBool b => b
  | JNumber nonzero => nonzero
  | JString s => Py.truthy s
  | JArray items => match items with [] => false | _ :: _ => true end
  end.

(** ["action" in structured_data]: a key of an object, a substring of a
    string, an element of an array; the other values are no containers. *)
Definition has_action (a : Answer) : result bool :=
  match a with
  | JObject fields => Returned (bool_decide (is_Some (fields !! "action")))
  | JString s => Returned (Py.contains "action" s)
  | JArray items =>
      Returned (existsb (λ x, match x with
                              | JString s => String.eqb s "action"
                              | _ => false
                              end) items)
  | JNull => Raised TypeError
  | JBool _ => Raised TypeError
  | JNumber _ => Raised TypeError
  end.

(** Step 2b: the test of line 72, then the textual parse when the log
    holds the marker. *)
Definition fallback (raw_log : string) (structured_data : Answer) : result Answer :=
  let retried :=
    if Py.contains "executed action:" raw_log
    then JObject (fallback_parse raw_log)
    else structured_data in
  if negb (truthy structured_data) then Returned retried
  else
    match has_action structured_data with
    | Raised e => Raised e
    | Returned false => Returned retried
    | Returned true => Returned structured_data
    end.

(** ** The world of the pipeline *)

Record State := mkState {
  engine_of : t;
  artifacts_of : list Reporter.Artifact;
  baseline_of : list Database.Baseline;
  audit_items_of : list Database.AuditItem;
  posted_of : list string;
  ticks_of : nat
}.

(** The stores of a state as a world of the typed embedding; its engine
    carries the history and no rule.  The operations on the stores
    ([save_artifact], [save_log_baseline], [save_audit_item]) neither read
    nor write the engine. *)
Definition stores (st : State) : World :=
  mkWorld (RuleEngine.mk ∅ (user_state (engine_of st)))
          (artifacts_of st) (baseline_of st) (audit_items_of st)
          (posted_of st) (ticks_of st).

Definition put_stores (st : State) (w : World) : State :=
  mkState (engine_of st) (artifacts w) (IntegrityBaseline w) (AuditItems w)
          (posted w) (ticks w).

(** State passing with exceptions: what was done before a raise stays. *)
Definition UM (A : Type) : Type := State -> result A * State.

#[global] Instance UM_ret : MRet UM := λ A a st, (Returned a, st).
#[global] Instance UM_bind : MBind UM := λ A B f m st,
  match m st with
  | (Returned a, st') => f a st'
  | (Raised e, st') => (Raised e, st')
  end.

Definition raise {A} (e : exn) : UM A := λ st, (Raised e, st).

(** An operation on the stores. *)
Definition lift {A} (m : M A) : UM A :=
  λ st, let '(a, w) := m (stores st) in (Returned a, put_stores st w).

Section Pipeline.

Variable env : Env.                        (* the UUID generator and the clocks *)
Variable reply : nat -> string -> Answer.  (* what the parser returns *)

(** [parse_log_with_phi3] *)
Definition parse_log_with_phi3 (log_line : string) : UM Answer :=
  λ st, (Returned (reply (ticks_of st) log_line),
         mkState (engine_of st) (artifacts_of st) (baseline_of st)
                 (audit_items_of st) (posted_of st ++ [log_line]) (S (ticks_of st))).

(** [rule_engine.analyze_log] on the shared instance. *)
Definition call_engine (structured_data : gmap string string) : UM (list string) :=
  λ st, let '(r, e) := analyze_log structured_data (engine_of st) in
        (r, mkState e (artifacts_of st) (baseline_of st) (audit_items_of st)
                    (posted_of st) (ticks_of st)).

(** Steps 2 to 4.  [analyze_log] begins with [structured_log.get]: on an
    answer that is no object it raises before anything is stored. *)
Definition process (raw_log current_hash : string) (integrity_status : bool) : UM bool :=
  structured_data ← parse_log_with_phi3 raw_log;
  structured_data ← (λ st, (fallback raw_log structured_data, st));
  match structured_data with
  | JObject fields =>
      violations ← call_engine fields;
      log_id ← lift (save_log_baseline env raw_log current_hash);
      lift (report env raw_log fields integrity_status log_id violations);;
      mret true
  | _ => raise AttributeError
  end.

(** [run_pipeline(raw_log, expected_hash)] *)
Definition run_pipeline (raw_log : string) (expected_hash : option string) : UM bool :=
  let current_hash := Hasher.generate_sha256 raw_log in
  let integrity_status := true in
  if Py.truthy_opt expected_hash then
    let integrity_status :=
      Hasher.verify_integrity raw_log (default "" expected_hash) in
    if negb integrity_status then lift (tampering env raw_log)
    else process raw_log current_hash integrity_status
  else process raw_log current_hash integrity_status.

End Pipeline.

(** ** From the typed embedding *)

Definition of_action_pair (p : string * string) : ConflictValue :=
  Pair (AStr p.1) (AStr p.2).

Definition of_rule (r : RuleEngine.Rule) : RuleValue :=
  RuleDict (Some (RuleEngine.id r))
    match RuleEngine.conflict_actions r with
    | None => NoConflicts
    | Some pairs => Conflicts (of_action_pair <$> pairs)
    end.

Definition of_engine (e : RuleEngine.t) : t :=
  {| rules := RulesDict (of_rule <$> RuleEngine.rules e);
     user_state := RuleEngine.user_state e |}.

Definition of_source (src : RuleEngine.Source) : Source :=
  match src with
  | RuleEngine.Unreadable => Unreadable
  | RuleEngine.Malformed => Malformed
  | RuleEngine.Loaded RuleEngine.NotAMapping => Loaded ConfigNoGet
  | RuleEngine.Loaded (RuleEngine.Mapping None) => Loaded (ConfigDict None)
  | RuleEngine.Loaded (RuleEngine.Mapping (Some r)) =>
      Loaded (ConfigDict (Some (RulesDict (of_rule <$> r))))
  end.

Definition of_world (w : World) : State :=
  mkState (of_engine (engine w)) (artifacts w) (IntegrityBaseline w)
          (AuditItems w) (posted w) (ticks w).

End Untyped.

(** ** The typed embedding is the untyped one on well-formed values *)

Section Refinement.

Lemma init_refines src :
  Untyped.init (Untyped.of_source src) = Untyped.of_engine (RuleEngine.init src).
Proof.
  unfold Untyped.init, Untyped.of_engine. destruct src as [| |[[r|]|]]; simpl;
    try done; by rewrite fmap_empty.
Qed.

Lemma check_pairs_refines rule_id user (actions : gset string)
    (pairs : list (string * string)) violations :
  Untyped.check_pairs (Some rule_id) user actions
    (Untyped.of_action_pair <$> pairs) violations
  = Untyped.Returned (RuleEngine.check_pairs rule_id user actions pairs violations).
Proof.
  revert violations. induction pairs as [|[a b] pairs IH]; intros violations; [done|].
  cbn [fmap list_fmap Untyped.of_action_pair Untyped.check_pairs
       RuleEngine.check_pairs Untyped.is_in fst snd].
  destruct (bool_decide (a ∈ actions)), (bool_decide (b ∈ actions)); simpl; apply IH.
Qed.

(** On an engine of the typed embedding [analyze_log] never raises and
    does what the typed definition does. *)
Lemma analyze_log_refines ev (e : RuleEngine.t) :
  Untyped.analyze_log ev (Untyped.of_engine e)
  = (Untyped.Returned (RuleEngine.analyze_log ev e).1,
     Untyped.of_engine (RuleEngine.analyze_log ev e).2).
Proof.
  unfold Untyped.analyze_log, RuleEngine.analyze_log, Untyped.of_engine.
  destruct (ev !! "user") as [u|]; [|done].
  destruct (ev !! "action") as [a|]; [|done].
  destruct (negb (Py.truthy u) || negb (Py.truthy a)); [done|].
  cbn [Untyped.rules Untyped.user_state RuleEngine.rules RuleEngine.user_state].
  rewrite lookup_fmap.
  destruct (RuleEngine.rules e !! "nist_ac2_sod") as [r|]; [|done].
  cbn [fmap option_fmap option_map Untyped.of_rule].
  destruct (RuleEngine.conflict_actions r) as [pairs|]; [|done].
  cbn [default]. by rewrite check_pairs_refines.
Qed.

(** Replacing the engine of a world. *)
Definition with_engine (e : RuleEngine.t) (w : World) : World :=
  mkWorld e (artifacts w) (IntegrityBaseline w) (AuditItems w) (posted w) (ticks w).

(** An operation that leaves the engine alone. *)
Definition store_op {A} (m : M A) : Prop :=
  ∀ e w, m (with_engine e w) = ((m w).1, with_engine e (m w).2)
         ∧ engine (m w).2 = engine w.

Lemma lift_store_op {A} (m : M A) w :
  store_op m →
  Untyped.lift m (Untyped.of_world w)
  = (Untyped.Returned (m w).1, Untyped.of_world (m w).2).
Proof.
  intros Hop. unfold Untyped.lift.
  change (Untyped.stores (Untyped.of_world w))
    with (with_engine (RuleEngine.mk ∅ (RuleEngine.user_state (engine w))) w).
  destruct (Hop (RuleEngine.mk ∅ (RuleEngine.user_state (engine w))) w) as [-> He].
  unfold Untyped.put_stores, Untyped.of_world. simpl. by rewrite He.
Qed.

Lemma save_log_baseline_store_op env raw h : store_op (save_log_baseline env raw h).
Proof. intros e w. by split. Qed.

Lemma tampering_store_op env raw : store_op (tampering env raw).
Proof. intros e w. by split. Qed.

Lemma report_violation_store_op env raw sd i log_id v :
  store_op (report_violation env raw sd i log_id v).
Proof. intros e w. by split. Qed.

Lemma for_each_store_op {A} (xs : list A) (body : A → M unit) :
  (∀ x, store_op (body x)) → store_op (for_each xs body).
Proof.
  intros Hbody. induction xs as [|x xs IH]; intros e w; [by split|].
  rewrite !for_each_cons.
  destruct (Hbody x e w) as [-> He]. cbn [snd].
  destruct (IH e (body x w).2) as [-> He']. by rewrite He'.
Qed.

Lemma report_store_op env raw sd i log_id violations :
  store_op (report env raw sd i log_id violations).
Proof.
  destruct violations as [|v vs]; [intros e w; by split|].
  apply for_each_store_op. intros x. apply report_violation_store_op.
Qed.

(** On a world of the typed embedding and a parser that answers with
    objects, [run_pipeline] never raises and does what the typed
    definition does. *)
Lemma run_pipeline_refines env raw expected w :
  Untyped.run_pipeline env (λ n log, Untyped.JObject (ollama env n log))
    raw expected (Untyped.of_world w)
  = (Untyped.Returned (run_pipeline env raw expected w).1,
     Untyped.of_world (run_pipeline env raw expected w).2).
Proof.
  assert (Hprocess : ∀ h i,
    Untyped.process env (λ n log, Untyped.JObject (ollama env n log)) raw h i
      (Untyped.of_world w)
    = (Untyped.Returned (process env raw h i w).1,
       Untyped.of_world (process env raw h i w).2)).
  { intros h i. unfold Untyped.process, process.
    unfold mbind, Untyped.UM_bind, M_bind, Untyped.parse_log_with_phi3,
      parse_log_with_phi3, tick, get_world, put_world, mret, M_ret. simpl.
    set (answer := ollama env (ticks w) raw).
    assert (Hfb : Untyped.fallback raw (Untyped.JObject answer)
                  = Untyped.Returned (Untyped.JObject (fallback raw answer))).
    { unfold Untyped.fallback, fallback. simpl.
      destruct (decide (answer = ∅)) as [He|He].
      - rewrite (bool_decide_eq_true_2 _ He). simpl.
        by destruct (Py.contains "executed action:" raw).
      - rewrite (bool_decide_eq_false_2 _ He). simpl.
        destruct (answer !! "action") as [a|] eqn:Ha.
        + rewrite bool_decide_eq_true_2 by eauto.
          by rewrite bool_decide_eq_false_2 by done.
        + rewrite (bool_decide_eq_false_2 (is_Some None)) by (by intros [? ?]).
          rewrite bool_decide_eq_true_2 by done.
          by destruct (Py.contains "executed action:" raw). }
    rewrite Hfb. unfold Untyped.call_engine, analyze_log. simpl.
    rewrite analyze_log_refines.
    destruct (RuleEngine.analyze_log (fallback raw answer) (engine w))
      as [violations e] eqn:Hengine. simpl.
    match goal with
    | |- context [report env raw ?sd i ?l violations ?w1] =>
        set (w1' := w1);
        match goal with
        | |- context [Untyped.lift ?m ?st] =>
            change st with (Untyped.of_world w1');
            rewrite (lift_store_op m w1') by apply report_store_op
        end;
        by destruct (report env raw sd i l violations w1') as [[] w2]
    end. }
  unfold Untyped.run_pipeline, run_pipeline.
  destruct (Py.truthy_opt expected); [|apply Hprocess].
  destruct (negb (Hasher.verify_integrity raw (default "" expected))); [|apply Hprocess].
  by rewrite lift_store_op by apply tampering_store_op.
Qed.

End Refinement.

(** ** Facts on the untyped pipeline *)

Section UntypedFacts.

Implicit Types (env : Env) (st : Untyped.State) (raw : string).

Lemma untyped_run_pipeline_branches env reply raw expected st :
  Untyped.run_pipeline env reply raw expected st
  = if integrity_fails raw expected
    then Untyped.lift (tampering env raw) st
    else Untyped.process env reply raw (Hasher.generate_sha256 raw) true st.
Proof.
  unfold Untyped.run_pipeline, integrity_fails.
  destruct (Py.truthy_opt expected); [|done].
  by destruct (Hasher.verify_integrity raw (default "" expected)).
Qed.

(** On an object the test of line 72 is the one of the typed embedding. *)
Lemma fallback_object raw (fields : gmap string string) :
  Untyped.fallback raw (Untyped.JObject fields)
  = Untyped.Returned (Untyped.JObject (fallback raw fields)).
Proof.
  unfold Untyped.fallback, fallback. simpl.
  destruct (decide (fields = ∅)) as [He|He].
  - rewrite (bool_decide_eq_true_2 _ He). simpl.
    by destruct (Py.contains "executed action:" raw).
  - rewrite (bool_decide_eq_false_2 _ He). simpl.
    destruct (fields !! "action") as [a|] eqn:Ha.
    + rewrite bool_decide_eq_true_2 by eauto.
      by rewrite bool_decide_eq_false_2 by done.
    + rewrite (bool_decide_eq_false_2 (is_Some None)) by (by intros [? ?]).
      rewrite bool_decide_eq_true_2 by done.
      by destruct (Py.contains "executed action:" raw).
Qed.


(** Steps 2 to 4, stage by stage: the answer is posted for, the test of
    line 72 and the fallback, the call of the engine, the two stores. *)
Lemma untyped_process_cases env reply raw h i st :
  let st0 := Untyped.mkState (Untyped.engine_of st) (Untyped.artifacts_of st)
               (Untyped.baseline_of st) (Untyped.audit_items_of st)
               (Untyped.posted_of st ++ [raw]) (S (Untyped.ticks_of st)) in
  Untyped.process env reply raw h i st
  = match Untyped.fallback raw (reply (Untyped.ticks_of st) raw) with
    | Untyped.Raised e => (Untyped.Raised e, st0)
    | Untyped.Returned (Untyped.JObject sd) =>
        let called := Untyped.analyze_log sd (Untyped.engine_of st) in
        let st1 := Untyped.mkState called.2 (Untyped.artifacts_of st)
                     (Untyped.baseline_of st) (Untyped.audit_items_of st)
                     (Untyped.posted_of st ++ [raw]) (S (Untyped.ticks_of st)) in
        match called.1 with
        | Untyped.Raised e => (Untyped.Raised e, st1)
        | Untyped.Returned violations =>
            let w1 := (save_log_baseline env raw h (Untyped.stores st1)).2 in
            let log_id := S (length (Untyped.baseline_of st)) in
            (Untyped.Returned true,
             Untyped.put_stores st1 (report env raw sd i log_id violations w1).2)
        end
    | Untyped.Returned _ => (Untyped.Raised Untyped.AttributeError, st0)
    end.
Proof.
  intros st0.
  unfold Untyped.process, mbind, Untyped.UM_bind, Untyped.parse_log_with_phi3.
  destruct (Untyped.fallback raw (reply (Untyped.ticks_of st) raw))
    as [[sd| | | | |]|e]; try done.
  unfold Untyped.call_engine. cbn [Untyped.engine_of].
  set (called := Untyped.analyze_log sd (Untyped.engine_of st)).
  destruct called as [[violations|e] eng] eqn:Hcalled; [|done].
  cbn [fst snd]. unfold Untyped.lift.
  with_strategy opaque [report] simpl.
  unfold Untyped.stores, Untyped.put_stores.
  with_strategy opaque [report] simpl.
  match goal with
  | |- context [report env raw sd i ?l violations ?w1] =>
      by destruct (report env raw sd i l violations w1) as [[] w2]
  end.
Qed.

Lemma untyped_analyze_log_rules ev (self : Untyped.t) :
  Untyped.rules (Untyped.analyze_log ev self).2 = Untyped.rules self.
Proof.
  unfold Untyped.analyze_log.
  destruct (ev !! "user") as [u|], (ev !! "action") as [a|]; try done.
  destruct (negb (Py.truthy u) || negb (Py.truthy a)); [done|]. simpl.
  destruct (Untyped.rules self) as [rs|]; [|done].
  by destruct (rs !! "nist_ac2_sod") as [[| |rule_id [| |]]|].
Qed.

Lemma untyped_analyze_all_rules evs (self : Untyped.t) :
  Untyped.rules (Untyped.analyze_all evs self) = Untyped.rules self.
Proof.
  revert self. induction evs as [|ev evs IH]; intros self; [done|].
  unfold Untyped.analyze_all in *. simpl. rewrite IH.
  apply untyped_analyze_log_rules.
Qed.

(** Without rules no call reports anything, and none raises. *)
Lemma untyped_no_rules ev (self : Untyped.t) :
  Untyped.rules self = Untyped.RulesDict ∅ →
  (Untyped.analyze_log ev self).1 = Untyped.Returned [].
Proof.
  intros Hrules. unfold Untyped.analyze_log.
  destruct (ev !! "user") as [u|], (ev !! "action") as [a|]; try done.
  destruct (negb (Py.truthy u) || negb (Py.truthy a)); [done|]. simpl.
  by rewrite Hrules, lookup_empty.
Qed.

(** A call that passes the guard writes the history before it reads
    [self.rules]. *)
Lemma untyped_analyze_log_guarded u a (self : Untyped.t) :
  Py.truthy u = true → Py.truthy a = true →
  Untyped.user_state (Untyped.analyze_log (RuleEngine.event u a) self).2
  = <[u := default ∅ (Untyped.user_state self !! u) ∪ {[a]}]> (Untyped.user_state self).
Proof.
  intros Hu Ha. unfold Untyped.analyze_log.
  rewrite lookup_event_user, lookup_event_action, Hu, Ha. simpl.
  rewrite record_action_insert.
  destruct (Untyped.rules self) as [rs|]; [|done].
  by destruct (rs !! "nist_ac2_sod") as [[| |rule_id [| |]]|].
Qed.

(** An event with both fields is an answer the test of line 72 accepts. *)
Lemma fallback_event raw u a :
  Untyped.fallback raw (Untyped.JObject (RuleEngine.event u a))
  = Untyped.Returned (Untyped.JObject (RuleEngine.event u a)).
Proof.
  rewrite fallback_object. reflexivity.
Qed.

(** A run whose call of the engine raises stores nothing. *)
Lemma untyped_run_raises env reply raw expected st sd e :
  integrity_fails raw expected = false →
  Untyped.fallback raw (reply (Untyped.ticks_of st) raw)
  = Untyped.Returned (Untyped.JObject sd) →
  (Untyped.analyze_log sd (Untyped.engine_of st)).1 = Untyped.Raised e →
  let out := Untyped.run_pipeline env reply raw expected st in
  out.1 = Untyped.Raised e
  ∧ Untyped.engine_of out.2 = (Untyped.analyze_log sd (Untyped.engine_of st)).2
  ∧ Untyped.artifacts_of out.2 = Untyped.artifacts_of st
  ∧ Untyped.baseline_of out.2 = Untyped.baseline_of st
  ∧ Untyped.audit_items_of out.2 = Untyped.audit_items_of st.
Proof.
  intros Hok Hfb Hraise out. unfold out.
  rewrite untyped_run_pipeline_branches, Hok, untyped_process_cases, Hfb.
  cbv zeta. by rewrite Hraise.
Qed.

(** A run whose call of the engine returns goes to the end. *)
Lemma untyped_run_returns env reply raw expected st sd violations :
  integrity_fails raw expected = false →
  Untyped.fallback raw (reply (Untyped.ticks_of st) raw)
  = Untyped.Returned (Untyped.JObject sd) →
  (Untyped.analyze_log sd (Untyped.engine_of st)).1 = Untyped.Returned violations →
  let out := Untyped.run_pipeline env reply raw expected st in
  out.1 = Untyped.Returned true
  ∧ Untyped.engine_of out.2 = (Untyped.analyze_log sd (Untyped.engine_of st)).2.
Proof.
  intros Hok Hfb Hret out. unfold out.
  rewrite untyped_run_pipeline_branches, Hok, untyped_process_cases, Hfb.
  cbv zeta. by rewrite Hret.
Qed.


End UntypedFacts.

(** ** A policy source that parses and holds no rules *)

Section PolicySource.

(** The document [rules:], the key with no value: [yaml.safe_load] gives
    [{"rules": None}]. *)
Definition null_rules : Untyped.Source :=
  Untyped.Loaded (Untyped.ConfigDict (Some Untyped.RulesNoGet)).

(** The rule with [conflict_actions:] and no value under it. *)
Definition null_conflict_actions : Untyped.Source :=
  Untyped.Loaded (Untyped.ConfigDict (Some (Untyped.RulesDict
    (<["nist_ac2_sod" :=
         Untyped.RuleDict (Some "AC-5") Untyped.ConflictsNotIterable]> ∅)))).

(** The sources on which the [try] block raises, and the mapping without
    the key [rules]. *)
Definition fails_to_load (src : Untyped.Source) : Prop :=
  src = Untyped.Unreadable ∨ src = Untyped.Malformed
  ∨ src = Untyped.Loaded Untyped.ConfigNoGet
  ∨ src = Untyped.Loaded (Untyped.ConfigDict None).

(** C7. [_load_rules] fails open on a source that cannot be read or
    parsed, that is no mapping, or that has no key [rules]: the engine
    starts with no rule, every later call returns the empty list and a
    run on an event completes.  It does not on the document [rules:],
    which parses: the engine is built with [None] for rules, every call
    that passes the guard records the action and raises
    [AttributeError], and the run raises with no artifact, baseline row
    or finding row stored.  A rule with [conflict_actions:] and no value
    makes the call raise [TypeError]. *)
Theorem fail_open_misses_null_rules env reply raw expected st user action :
  Py.truthy user = true → Py.truthy action = true →
  integrity_fails raw expected = false →
  reply (Untyped.ticks_of st) raw = Untyped.JObject (RuleEngine.event user action) →
  (∀ src, fails_to_load src →
     Untyped.init src = Untyped.mk (Untyped.RulesDict ∅) ∅
     ∧ (∀ evs ev,
          (Untyped.analyze_log ev (Untyped.analyze_all evs (Untyped.init src))).1
          = Untyped.Returned [])
     ∧ (∀ evs,
          Untyped.engine_of st = Untyped.analyze_all evs (Untyped.init src) →
          (Untyped.run_pipeline env reply raw expected st).1 = Untyped.Returned true))
  ∧ Untyped.init null_rules = Untyped.mk Untyped.RulesNoGet ∅
  ∧ (∀ evs,
       let self := Untyped.analyze_all evs (Untyped.init null_rules) in
       Untyped.analyze_log (RuleEngine.event user action) self
       = (Untyped.Raised Untyped.AttributeError,
          Untyped.mk Untyped.RulesNoGet
            (<[user := default ∅ (Untyped.user_state self !! user) ∪ {[action]}]>
               (Untyped.user_state self)))
       ∧ (Untyped.engine_of st = self →
          let out := Untyped.run_pipeline env reply raw expected st in
          out.1 = Untyped.Raised Untyped.AttributeError
          ∧ Untyped.artifacts_of out.2 = Untyped.artifacts_of st
          ∧ Untyped.baseline_of out.2 = Untyped.baseline_of st
          ∧ Untyped.audit_items_of out.2 = Untyped.audit_items_of st))
  ∧ (∀ evs,
       (Untyped.analyze_log (RuleEngine.event user action)
          (Untyped.analyze_all evs (Untyped.init null_conflict_actions))).1
       = Untyped.Raised Untyped.TypeError).
Proof.
  intros Hu Ha Hok Hreply.
  assert (Hfb : Untyped.fallback raw (reply (Untyped.ticks_of st) raw)
                = Untyped.Returned (Untyped.JObject (RuleEngine.event user action)))
    by (rewrite Hreply; apply fallback_event).
  split; [|split; [done|split]].
  - intros src Hsrc.
    assert (Hinit : Untyped.init src = Untyped.mk (Untyped.RulesDict ∅) ∅)
      by (by destruct Hsrc as [-> | [-> | [-> | ->]]]).
    assert (Hquiet : ∀ evs ev,
      (Untyped.analyze_log ev (Untyped.analyze_all evs (Untyped.init src))).1
      = Untyped.Returned []).
    { intros evs ev. apply untyped_no_rules.
      by rewrite untyped_analyze_all_rules, Hinit. }
    split; [done|]. split; [done|]. intros evs Hengine.
    eapply untyped_run_returns; [done|exact Hfb|]. rewrite Hengine. apply Hquiet.
  - intros evs self.
    assert (Hrules : Untyped.rules self = Untyped.RulesNoGet)
      by (unfold self; by rewrite untyped_analyze_all_rules).
    assert (Hcall : Untyped.analyze_log (RuleEngine.event user action) self
      = (Untyped.Raised Untyped.AttributeError,
         Untyped.mk Untyped.RulesNoGet
           (<[user := default ∅ (Untyped.user_state self !! user) ∪ {[action]}]>
              (Untyped.user_state self)))).
    { unfold Untyped.analyze_log.
      rewrite lookup_event_user, lookup_event_action, Hu, Ha. simpl.
      by rewrite Hrules, record_action_insert. }
    split; [done|]. intros Hengine out.
    destruct (untyped_run_raises env reply raw expected st
                (RuleEngine.event user action) Untyped.AttributeError Hok Hfb)
      as (Hout & _ & Harts & Hbase & Hitems); [by rewrite Hengine, Hcall|].
    done.
  - intros evs. unfold Untyped.analyze_log.
    rewrite lookup_event_user, lookup_event_action, Hu, Ha. simpl.
    by rewrite untyped_analyze_all_rules.
Qed.

(** C7 on the first line of a user, the engine built from [rules:]. *)
Lemma fail_open_misses_null_rules_witness :
  let reply := λ (_ : nat) (_ : string),
    Untyped.JObject (RuleEngine.event "u_finance_01" "Create_Invoice") in
  let st := Untyped.mkState (Untyped.init null_rules) [] [] [] [] 0 in
  let out := Untyped.run_pipeline Scenario.offline reply Scenario.log_create None st in
  out.1 = Untyped.Raised Untyped.AttributeError
  ∧ Untyped.user_state (Untyped.engine_of out.2)
    = <["u_finance_01" := {["Create_Invoice"]}]> ∅
  ∧ Untyped.baseline_of out.2 = []
  ∧ Untyped.audit_items_of out.2 = [].
Proof.
  intros reply st out.
  destruct (fail_open_misses_null_rules Scenario.offline reply Scenario.log_create
              None st "u_finance_01" "Create_Invoice"
              eq_refl eq_refl eq_refl eq_refl) as (_ & _ & Hnull & _).
  destruct (Hnull []) as [_ Hrun].
  destruct (Hrun eq_refl) as (Hout & _ & Hbase & Hitems).
  split; [exact Hout|]. split; [vm_compute; reflexivity|].
  split; [exact Hbase | exact Hitems].
Defined.

End PolicySource.

(** ** When the parser's answer cannot be used *)

Section ExtractionFailure.




End ExtractionFailure.
